(** * Granule-cell morphology builder and parameter tables

    A shallow embedding of [dbbs_models/granule_cell_models.py].

    The builder is imperative Python: it creates simulator sections, mutates
    them through the [patch] API and stores references to them in attributes
    of the model instance.  It is embedded here in a state-and-error monad
    over a section store (references are creation indices, so object identity
    and "created earlier" are both visible) and a record of instance
    attributes.  Python [float]s are IEEE binary64 numbers and are embedded
    as Rocq's primitive floats; Python [int]s are embedded as [Z]. *)

From Stdlib Require Import Floats ZArith String List Bool Lia PeanoNat.
From Stdlib Require Import DecimalString FinFun.
Import ListNotations.

Set Warnings "-inexact-float".

Local Open Scope Z_scope.

(** ** Python numbers *)

Module Py.

(** Implicit [int] to [float] conversion.  It is exact below [2^53] in
    absolute value, which covers every integer the builder converts. *)
Definition float_of_int (z : Z) : float :=
  match z with
  | Z0 => 0%float
  | Zpos _ => PrimFloat.of_uint63 (Uint63.of_Z z)
  | Zneg p => PrimFloat.opp (PrimFloat.of_uint63 (Uint63.of_Z (Zpos p)))
  end.

(** [a / b] on two [int]s: true division, [ZeroDivisionError] on [b = 0]. *)
Definition truediv (a b : Z) : option float :=
  if b =? 0 then None
  else Some (PrimFloat.div (float_of_int a) (float_of_int b)).

(** [int(x)] on a [float]: truncation toward zero; infinities and NaN raise. *)
Definition int (x : float) : option Z :=
  match Prim2SF x with
  | S754_zero _ => Some 0
  | S754_finite s m e =>
      let a := if 0 <=? e then Z.shiftl (Zpos m) e else Z.shiftr (Zpos m) (- e) in
      Some (if s then - a else a)
  | S754_infinity _ | S754_nan => None
  end.

(** [math.floor(x)] on a [float]: rounding toward minus infinity. *)
Definition floor (x : float) : option Z :=
  match Prim2SF x with
  | S754_zero _ => Some 0
  | S754_finite s m e =>
      let v := if s then Zneg m else Zpos m in
      Some (if 0 <=? e then Z.shiftl v e else Z.shiftr v (- e))
  | S754_infinity _ | S754_nan => None
  end.

(** [str(x)] on an [int]. *)
Definition str (z : Z) : string := NilZero.string_of_int (Z.to_int z).

(** [range(n)]. *)
Definition range (n : Z) : list Z := map Z.of_nat (seq 0 (Z.to_nat n)).

(** [enumerate(l)]. *)
Definition enumerate {A} (l : list A) : list (Z * A) :=
  combine (range (Z.of_nat (length l))) l.

(** [l[i]]: negative indices count from the end, [IndexError] out of range. *)
Definition index {A} (l : list A) (i : Z) : option A :=
  if i <? 0 then
    if i + Z.of_nat (length l) <? 0 then None
    else nth_error l (Z.to_nat (i + Z.of_nat (length l)))
  else nth_error l (Z.to_nat i).

End Py.

(** ** Positions *)

(** Modelled from the spec: the instance attribute [position] is assigned by
    [DbbsNeuronModel] in [_shared.py], which is not part of the sources; the
    spec calls it a 3-D placement position vector.  The builder adds 3-element
    lists to it and copies and updates it by component, which is the behaviour
    of a numeric array of three floats. *)
Record Vec3 : Set := vec3 { vx : float; vy : float; vz : float }.

(** [a + [x, y, z]]: componentwise sum. *)
Definition vadd (a b : Vec3) : Vec3 :=
  vec3 (vx a + vx b) (vy a + vy b) (vz a + vz b).

(** [v[0] += d] and [v[1] -= d] on a copy of [v]. *)
Definition add_x (v : Vec3) (d : float) : Vec3 := vec3 (vx v + d) (vy v) (vz v).
Definition sub_y (v : Vec3) (d : float) : Vec3 := vec3 (vx v) (vy v - d) (vz v).

(** ** Sections and the section store *)

(** A reference to a section: its index in creation order. *)
Definition ref : Set := nat.
Bind Scope nat_scope with ref.

(** [child.connect(parent, x)]; the builder sometimes leaves [x] out, and the
    simulator then uses its default attachment end. *)
Record Connection : Set := mkConnection {
  conn_parent : ref;
  conn_end : option Z
}.

(** Modelled from the spec: the section type of the external [patch] package,
    a cable compartment with length, diameter, segment count, an ordered
    sequence of 3-D points, labels and a parent connection.  A dimension the
    builder has not assigned is [None] (it is left at the simulator's
    default). *)
Record Section : Set := mkSection {
  sec_name : option string;
  sec_L : option float;
  sec_diam : option float;
  sec_nseg : option Z;
  sec_pt3d : list Vec3;
  sec_labels : list string;
  sec_parent : option Connection
}.

Definition fresh_section (name : option string) : Section :=
  mkSection name None None None [] [] None.

(** ** Instance attributes *)

(** The attributes of the model instance the builder reads and writes.  An
    attribute that has not been assigned is [None]; reading it raises
    [AttributeError]. *)
Record Model : Set := mkModel {
  position : Vec3;
  fiber_section_length : option Z;
  fiber_segment_length : option Z;
  ascending_axon_length : option Z;
  parallel_fiber_length : option Z;
  soma : option (list ref);
  dend : option (list ref);
  axon : option (list ref);
  axon_hillock : option ref;
  axon_initial_segment : option ref;
  ascending_axon : option ref;
  y_pf : option float;
  parallel_fiber : option (list ref)
}.

Record State : Set := mkState {
  self : Model;
  heap : list Section
}.

(** ** The state-and-error monad *)

Definition M (A : Type) : Type := State -> option (A * State).

Definition ret {A} (a : A) : M A := fun s => Some (a, s).

Definition bind {A B} (m : M A) (k : A -> M B) : M B :=
  fun s => match m s with
           | Some (a, s') => k a s'
           | None => None
           end.

(** A pure computation that may raise. *)
Definition lift {A} (o : option A) : M A :=
  fun s => match o with
           | Some a => Some (a, s)
           | None => None
           end.

Declare Scope py_scope.
Delimit Scope py_scope with py.
Notation "x <- m ;; k" := (bind m (fun x => k))
  (at level 61, m at next level, right associativity) : py_scope.
Notation "m ;; k" := (bind m (fun _ => k))
  (at level 61, right associativity) : py_scope.
Local Open Scope py_scope.

(** [for x in l: body x]. *)
Fixpoint for_each {A} (l : list A) (body : A -> M unit) : M unit :=
  match l with
  | [] => ret tt
  | x :: l' => body x ;; for_each l' body
  end.

(** [[f x for x in l]]. *)
Fixpoint comprehension {A B} (l : list A) (f : A -> M B) : M (list B) :=
  match l with
  | [] => ret []
  | x :: l' => y <- f x ;; ys <- comprehension l' f ;; ret (y :: ys)
  end.

(** *** Attribute access on [self] *)

Definition getattr {A} (field : Model -> option A) : M A :=
  fun s => match field (self s) with
           | Some a => Some (a, s)
           | None => None
           end.

Definition get_position : M Vec3 := fun s => Some (position (self s), s).

Definition setattr (upd : Model -> Model) : M unit :=
  fun s => Some (tt, mkState (upd (self s)) (heap s)).

Definition with_fiber_section_length v m :=
  mkModel (position m) (Some v) (fiber_segment_length m) (ascending_axon_length m)
    (parallel_fiber_length m) (soma m) (dend m) (axon m) (axon_hillock m)
    (axon_initial_segment m) (ascending_axon m) (y_pf m) (parallel_fiber m).
Definition with_fiber_segment_length v m :=
  mkModel (position m) (fiber_section_length m) (Some v) (ascending_axon_length m)
    (parallel_fiber_length m) (soma m) (dend m) (axon m) (axon_hillock m)
    (axon_initial_segment m) (ascending_axon m) (y_pf m) (parallel_fiber m).
Definition with_ascending_axon_length v m :=
  mkModel (position m) (fiber_section_length m) (fiber_segment_length m) (Some v)
    (parallel_fiber_length m) (soma m) (dend m) (axon m) (axon_hillock m)
    (axon_initial_segment m) (ascending_axon m) (y_pf m) (parallel_fiber m).
Definition with_parallel_fiber_length v m :=
  mkModel (position m) (fiber_section_length m) (fiber_segment_length m)
    (ascending_axon_length m) (Some v) (soma m) (dend m) (axon m) (axon_hillock m)
    (axon_initial_segment m) (ascending_axon m) (y_pf m) (parallel_fiber m).
Definition with_soma v m :=
  mkModel (position m) (fiber_section_length m) (fiber_segment_length m)
    (ascending_axon_length m) (parallel_fiber_length m) (Some v) (dend m) (axon m)
    (axon_hillock m) (axon_initial_segment m) (ascending_axon m) (y_pf m)
    (parallel_fiber m).
Definition with_dend v m :=
  mkModel (position m) (fiber_section_length m) (fiber_segment_length m)
    (ascending_axon_length m) (parallel_fiber_length m) (soma m) (Some v) (axon m)
    (axon_hillock m) (axon_initial_segment m) (ascending_axon m) (y_pf m)
    (parallel_fiber m).
Definition with_axon v m :=
  mkModel (position m) (fiber_section_length m) (fiber_segment_length m)
    (ascending_axon_length m) (parallel_fiber_length m) (soma m) (dend m) (Some v)
    (axon_hillock m) (axon_initial_segment m) (ascending_axon m) (y_pf m)
    (parallel_fiber m).
Definition with_axon_hillock v m :=
  mkModel (position m) (fiber_section_length m) (fiber_segment_length m)
    (ascending_axon_length m) (parallel_fiber_length m) (soma m) (dend m) (axon m)
    (Some v) (axon_initial_segment m) (ascending_axon m) (y_pf m) (parallel_fiber m).
Definition with_axon_initial_segment v m :=
  mkModel (position m) (fiber_section_length m) (fiber_segment_length m)
    (ascending_axon_length m) (parallel_fiber_length m) (soma m) (dend m) (axon m)
    (axon_hillock m) (Some v) (ascending_axon m) (y_pf m) (parallel_fiber m).
Definition with_ascending_axon v m :=
  mkModel (position m) (fiber_section_length m) (fiber_segment_length m)
    (ascending_axon_length m) (parallel_fiber_length m) (soma m) (dend m) (axon m)
    (axon_hillock m) (axon_initial_segment m) (Some v) (y_pf m) (parallel_fiber m).
Definition with_y_pf v m :=
  mkModel (position m) (fiber_section_length m) (fiber_segment_length m)
    (ascending_axon_length m) (parallel_fiber_length m) (soma m) (dend m) (axon m)
    (axon_hillock m) (axon_initial_segment m) (ascending_axon m) (Some v)
    (parallel_fiber m).
Definition with_parallel_fiber v m :=
  mkModel (position m) (fiber_section_length m) (fiber_segment_length m)
    (ascending_axon_length m) (parallel_fiber_length m) (soma m) (dend m) (axon m)
    (axon_hillock m) (axon_initial_segment m) (ascending_axon m) (y_pf m) (Some v).

(** *** The section API *)

(** [p.Section(name=...)]: a new section, appended to the store. *)
Definition new_Section (name : option string) : M ref :=
  fun s => Some (length (heap s),
                 mkState (self s) (heap s ++ [fresh_section name])).

Fixpoint update_nth {A} (n : nat) (f : A -> A) (l : list A) : list A :=
  match l, n with
  | [], _ => []
  | x :: l', O => f x :: l'
  | x :: l', S n' => x :: update_nth n' f l'
  end.

Definition read (r : ref) : M Section :=
  fun s => match nth_error (heap s) r with
           | Some sec => Some (sec, s)
           | None => None
           end.

Definition modify (r : ref) (f : Section -> Section) : M unit :=
  fun s => match nth_error (heap s) r with
           | Some _ => Some (tt, mkState (self s) (update_nth r f (heap s)))
           | None => None
           end.

Definition with_L v sec :=
  mkSection (sec_name sec) (Some v) (sec_diam sec) (sec_nseg sec) (sec_pt3d sec)
    (sec_labels sec) (sec_parent sec).
Definition with_diam v sec :=
  mkSection (sec_name sec) (sec_L sec) (Some v) (sec_nseg sec) (sec_pt3d sec)
    (sec_labels sec) (sec_parent sec).
Definition with_nseg v sec :=
  mkSection (sec_name sec) (sec_L sec) (sec_diam sec) (Some v) (sec_pt3d sec)
    (sec_labels sec) (sec_parent sec).
Definition with_pt3d v sec :=
  mkSection (sec_name sec) (sec_L sec) (sec_diam sec) (sec_nseg sec) v
    (sec_labels sec) (sec_parent sec).
Definition with_labels v sec :=
  mkSection (sec_name sec) (sec_L sec) (sec_diam sec) (sec_nseg sec) (sec_pt3d sec)
    v (sec_parent sec).
Definition with_parent v sec :=
  mkSection (sec_name sec) (sec_L sec) (sec_diam sec) (sec_nseg sec) (sec_pt3d sec)
    (sec_labels sec) (Some v).

(** [sec.L = v], [sec.diam = v], [sec.nseg = v], [sec.labels = v]. *)
Definition set_L (r : ref) (v : float) : M unit := modify r (with_L v).
Definition set_diam (r : ref) (v : float) : M unit := modify r (with_diam v).
Definition set_nseg (r : ref) (v : Z) : M unit := modify r (with_nseg v).
Definition set_labels (r : ref) (v : list string) : M unit := modify r (with_labels v).

(** [sec.L] read back.  Reading a length the builder never assigned would give
    the simulator's default, which is not modelled: the read is undefined. *)
Definition get_L (r : ref) : M float := sec <- read r ;; lift (sec_L sec).

(** [sec.set_dimensions(length, diameter)]. *)
Definition set_dimensions (r : ref) (len diameter : float) : M unit :=
  set_L r len ;; set_diam r diameter.

(** [sec.set_segments(n)]. *)
Definition set_segments (r : ref) (n : Z) : M unit := set_nseg r n.

(** [sec.add_3d(points)]: the points are appended in order. *)
Definition add_3d (r : ref) (points : list Vec3) : M unit :=
  modify r (fun sec => with_pt3d (sec_pt3d sec ++ points) sec).

(** [sec.connect(parent, x)] and [sec.connect(parent)]; the parent must be a
    section of the store. *)
Definition connect (r parent : ref) (x : option Z) : M unit :=
  read parent ;; modify r (with_parent (mkConnection parent x)).

(** ** The builder *)

Module GranuleBase.

Local Open Scope Z_scope.

(** [self.soma[0]]. *)
Definition soma_0 : M ref := l <- getattr soma ;; lift (Py.index l 0).

(** [build_soma]:
<<
    self.soma = [p.Section()]
    self.soma[0].set_dimensions(length=5.62232, diameter=5.8)
    self.soma[0].set_segments(1)
    self.soma[0].add_3d([self.position, self.position + [0., 5.62232, 0.]])
>> *)
Definition build_soma : M unit :=
  sec <- new_Section None ;;
  setattr (with_soma [sec]) ;;
  s0 <- soma_0 ;;
  set_dimensions s0 5.62232 5.8 ;;
  s0 <- soma_0 ;;
  set_segments s0 1 ;;
  s0 <- soma_0 ;;
  pos <- get_position ;;
  add_3d s0 [pos; vadd pos (vec3 0 5.62232 0)].

(** The body of [for i in range(4)] in [build_dendrites]:
<<
    dendrite = p.Section()
    self.dend.append(dendrite)
    dendrite_position = self.position.copy()
    dendrite_position[0] += (i - 1.5) * 2
    dendrite.set_dimensions(length=15, diameter=0.75)
    points = []
    for j in range(10):
        pt = dendrite_position.copy()
        pt[1] -= dendrite.L * j / 10
        points.append(pt)
    dendrite.add_3d([[p[0], p[1], p[2]] for p in points])
    dendrite.connect(self.soma[0],0)
>> *)
Definition build_dendrite (i : Z) : M unit :=
  dendrite <- new_Section None ;;
  l <- getattr dend ;;
  setattr (with_dend (l ++ [dendrite])) ;;
  pos <- get_position ;;
  (* Shift the dendrites a little bit for voxelization *)
  let dendrite_position := add_x pos ((Py.float_of_int i - 1.5) * Py.float_of_int 2) in
  set_dimensions dendrite (Py.float_of_int 15) 0.75 ;;
  points <- comprehension (Py.range 10) (fun j =>
    len <- get_L dendrite ;;
    ret (sub_y dendrite_position (len * Py.float_of_int j / Py.float_of_int 10))) ;;
  add_3d dendrite (map (fun p => vec3 (vx p) (vy p) (vz p)) points) ;;
  s0 <- soma_0 ;;
  connect dendrite s0 (Some 0).

(** [build_dendrites]: [self.dend = []], then the loop. *)
Definition build_dendrites : M unit :=
  setattr (with_dend []) ;;
  for_each (Py.range 4) build_dendrite.

(** [build_hillock]: the axon hillock, then the axon initial segment, then
<<
    self.axon = [hillock, ais]
    self.axon_hillock = hillock
    self.axon_initial_segment = ais
>> *)
Definition build_hillock : M unit :=
  hillock <- new_Section None ;;
  set_dimensions hillock (Py.float_of_int 1) 1.5 ;;
  set_segments hillock 1 ;;
  pos <- get_position ;;
  add_3d hillock [vadd pos (vec3 0 5.62232 0); vadd pos (vec3 0 6.62232 0)] ;;
  set_labels hillock ["axon_hillock"%string] ;;
  s0 <- soma_0 ;;
  connect hillock s0 (Some 0) ;;

  ais <- new_Section (Some "axon_initial_segment"%string) ;;
  set_labels ais ["axon_initial_segment"%string] ;;
  set_dimensions ais (Py.float_of_int 10) 0.7 ;;
  set_segments ais 1 ;;
  pos <- get_position ;;
  add_3d ais [vadd pos (vec3 0 6.62232 0); vadd pos (vec3 0 16.62232 0)] ;;
  connect ais hillock (Some 1) ;;

  setattr (with_axon [hillock; ais]) ;;
  setattr (with_axon_hillock hillock) ;;
  setattr (with_axon_initial_segment ais).

(** [fraction] of [build_ascending_axon]. *)
Definition fraction : list float :=
  [0.0; 0.1; 0.2; 0.3; 0.4; 0.5; 0.6; 0.7; 0.8; 0.9; 1.0]%float.

(** [build_ascending_axon]:
<<
    seg_length = self.fiber_segment_length
    n = int(self.ascending_axon_length / seg_length)
    self.ascending_axon = p.Section()
    self.ascending_axon.labels = ["ascending_axon"]
    self.ascending_axon.nseg = int(n)
    self.ascending_axon.L = self.ascending_axon_length
    self.ascending_axon.diam = 0.3
    previous_section = self.axon_initial_segment
    self.axon.append(self.ascending_axon)
    self.ascending_axon.connect(previous_section)
    y = 16.62232
    points = [self.position + [0., (y + f * self.ascending_axon_length), 0.]
              for f in fraction]
    self.ascending_axon.add_3d(points)
    self.y_pf = y + (seg_length * n)
>> *)
Definition build_ascending_axon : M unit :=
  seg_length <- getattr fiber_segment_length ;;
  aa_length <- getattr ascending_axon_length ;;
  q <- lift (Py.truediv aa_length seg_length) ;;
  n <- lift (Py.int q) ;;

  aa <- new_Section None ;;
  setattr (with_ascending_axon aa) ;;
  aa <- getattr ascending_axon ;;
  set_labels aa ["ascending_axon"%string] ;;
  aa <- getattr ascending_axon ;;
  set_nseg aa n ;;
  aa <- getattr ascending_axon ;;
  aa_length <- getattr ascending_axon_length ;;
  set_L aa (Py.float_of_int aa_length) ;;
  aa <- getattr ascending_axon ;;
  set_diam aa 0.3 ;;
  previous_section <- getattr axon_initial_segment ;;
  l <- getattr axon ;;
  aa <- getattr ascending_axon ;;
  setattr (with_axon (l ++ [aa])) ;;
  aa <- getattr ascending_axon ;;
  connect aa previous_section None ;;

  let y := 16.62232%float in

  (* Extract a set of intermediate points between start and end of
     ascending_axon to improve voxelization in scaffold *)
  points <- comprehension fraction (fun f =>
    pos <- get_position ;;
    aa_length <- getattr ascending_axon_length ;;
    ret (vadd pos (vec3 0 (y + f * Py.float_of_int aa_length) 0))) ;;

  aa <- getattr ascending_axon ;;
  add_3d aa points ;;

  (* Store the last used y position as the start for the parallel fiber *)
  setattr (with_y_pf (y + Py.float_of_int (seg_length * n))).

(** The body of [for id, section in enumerate(self.parallel_fiber)]:
<<
    section.labels = ["parallel_fiber"]
    section.set_dimensions(length=section_length, diameter=0.3)
    sign = 1 - (id % 2) * 2
    z = floor(id / 2) * section_length
    section.add_3d([
        self.position + [0., y, center + sign * z],
        self.position + [0., y, center + sign * (z + section_length)]
    ])
    if id < 2:
        section.connect(self.ascending_axon)
    else:
        section.connect(self.parallel_fiber[id - 2])
    z += section_length
>> *)
Definition build_parallel_fiber_section
    (section_length : Z) (y center : float) (id_section : Z * ref) : M unit :=
  let '(id, section) := id_section in
  set_labels section ["parallel_fiber"%string] ;;
  set_dimensions section (Py.float_of_int section_length) 0.3 ;;
  let sign := 1 - (id mod 2) * 2 in
  h <- lift (Py.truediv id 2) ;;
  fl <- lift (Py.floor h) ;;
  let z := fl * section_length in
  pos <- get_position ;;
  add_3d section
    [vadd pos (vec3 0 y (center + Py.float_of_int (sign * z)));
     vadd pos (vec3 0 y (center + Py.float_of_int (sign * (z + section_length))))] ;;
  (if id <? 2 then
     aa <- getattr ascending_axon ;;
     connect section aa None
   else
     l <- getattr parallel_fiber ;;
     parent <- lift (Py.index l (id - 2)) ;;
     connect section parent None)
  (* [z += section_length] closes the body; [z] is not read again *).

(** [build_parallel_fiber]:
<<
    section_length = self.fiber_section_length
    n = int(self.parallel_fiber_length / section_length)
    self.parallel_fiber = [p.Section(name='parellel_fiber_'+str(x)) for x in range(n)]
    y = self.y_pf
    center = self.position[2]
    for id, section in enumerate(self.parallel_fiber): ...
    self.axon.extend(self.parallel_fiber)
>> *)
Definition build_parallel_fiber : M unit :=
  section_length <- getattr fiber_section_length ;;
  pf_length <- getattr parallel_fiber_length ;;
  q <- lift (Py.truediv pf_length section_length) ;;
  n <- lift (Py.int q) ;;
  sections <- comprehension (Py.range n) (fun x =>
    new_Section (Some ("parellel_fiber_" ++ Py.str x)%string)) ;;
  setattr (with_parallel_fiber sections) ;;
  (* Use the last AA y as Y for the PF *)
  y <- getattr y_pf ;;
  pos <- get_position ;;
  let center := vz pos in
  l <- getattr parallel_fiber ;;
  for_each (Py.enumerate l) (build_parallel_fiber_section section_length y center) ;;
  ax <- getattr axon ;;
  l <- getattr parallel_fiber ;;
  setattr (with_axon (ax ++ l)).

(** [builder(model)]: the four length constants, then the five steps. *)
Definition builder : M unit :=
  setattr (with_fiber_section_length 20) ;;   (* µm (parallel fiber section length) *)
  setattr (with_fiber_segment_length 7) ;;
  setattr (with_ascending_axon_length 126) ;; (* µm *)
  setattr (with_parallel_fiber_length 2000) ;; (* µm *)
  build_soma ;;
  build_dendrites ;;
  build_hillock ;;
  build_ascending_axon ;;
  build_parallel_fiber.

End GranuleBase.

(** A model instance placed at [P] on which no builder has run, in a
    simulator that holds no section yet. *)
Definition new_model (P : Vec3) : Model :=
  mkModel P None None None None None None None None None None None None.

Definition initial (P : Vec3) : State := mkState (new_model P) [].

(** The state the builder leaves behind when it starts from [initial P]. *)
Definition built (P : Vec3) : State :=
  match GranuleBase.builder (initial P) with
  | Some (_, s) => s
  | None => initial P
  end.

(** ** Relocation

    The builder may run on any instance, in a simulator that already holds
    sections [h0].  It then creates the same sections at later indices: every
    reference moves up by [length h0]. *)

Section Relocation.

Variable h0 : list Section.

Definition shift_ref (r : ref) : ref := (r + length h0)%nat.

Definition shift_connection (c : Connection) : Connection :=
  mkConnection (shift_ref (conn_parent c)) (conn_end c).

Definition shift_section (sec : Section) : Section :=
  mkSection (sec_name sec) (sec_L sec) (sec_diam sec) (sec_nseg sec)
    (sec_pt3d sec) (sec_labels sec) (option_map shift_connection (sec_parent sec)).

Definition shift_model (m : Model) : Model :=
  mkModel (position m) (fiber_section_length m) (fiber_segment_length m)
    (ascending_axon_length m) (parallel_fiber_length m)
    (option_map (map shift_ref) (soma m))
    (option_map (map shift_ref) (dend m))
    (option_map (map shift_ref) (axon m))
    (option_map shift_ref (axon_hillock m))
    (option_map shift_ref (axon_initial_segment m))
    (option_map shift_ref (ascending_axon m))
    (y_pf m)
    (option_map (map shift_ref) (parallel_fiber m)).

Definition relocate (t : State) : State :=
  mkState (shift_model (self t)) (h0 ++ map shift_section (heap t)).

(** [a'] holds what [a] holds, when [a] is assigned. *)
Definition agrees {A} (a a' : option A) : Prop :=
  match a with
  | None => True
  | Some _ => a' = a
  end.

(** [m'] has every attribute of [m], relocated; attributes [m] lacks are
    unconstrained in [m']. *)
Record rel_model (m m' : Model) : Prop := mk_rel_model {
  rel_position : position m' = position m;
  rel_fiber_section_length :
    agrees (fiber_section_length (shift_model m)) (fiber_section_length m');
  rel_fiber_segment_length :
    agrees (fiber_segment_length (shift_model m)) (fiber_segment_length m');
  rel_ascending_axon_length :
    agrees (ascending_axon_length (shift_model m)) (ascending_axon_length m');
  rel_parallel_fiber_length :
    agrees (parallel_fiber_length (shift_model m)) (parallel_fiber_length m');
  rel_soma : agrees (soma (shift_model m)) (soma m');
  rel_dend : agrees (dend (shift_model m)) (dend m');
  rel_axon : agrees (axon (shift_model m)) (axon m');
  rel_axon_hillock : agrees (axon_hillock (shift_model m)) (axon_hillock m');
  rel_axon_initial_segment :
    agrees (axon_initial_segment (shift_model m)) (axon_initial_segment m');
  rel_ascending_axon : agrees (ascending_axon (shift_model m)) (ascending_axon m');
  rel_y_pf : agrees (y_pf (shift_model m)) (y_pf m');
  rel_parallel_fiber : agrees (parallel_fiber (shift_model m)) (parallel_fiber m')
}.

Definition rel_state (s s' : State) : Prop :=
  rel_model (self s) (self s') /\ heap s' = h0 ++ map shift_section (heap s).

(** [p'] simulates [p]: from related states, whenever [p] returns [a], [p']
    returns [f a], in related states. *)
Definition sim {A} (f : A -> A) (p p' : M A) : Prop :=
  forall s s' a t,
    rel_state s s' -> p s = Some (a, t) ->
    exists t', p' s' = Some (f a, t') /\ rel_state t t'.

End Relocation.

(** ** Observations on a state *)

(** The section a reference points to. *)
Definition section_at (s : State) (r : ref) : option Section := nth_error (heap s) r.

(** The parent a section is connected to. *)
Definition parent_of (s : State) (r : ref) : option ref :=
  match section_at s r with
  | Some sec => option_map conn_parent (sec_parent sec)
  | None => None
  end.

(** Every section the cell owns: [self.soma + self.dend + self.axon]. *)
Definition cell_sections (s : State) : list ref :=
  match soma (self s), dend (self s), axon (self s) with
  | Some so, Some de, Some ax => so ++ de ++ ax
  | _, _, _ => []
  end.

(** The section reached from [r] by following parent connections until a
    section without parent, within [fuel] steps. *)
Fixpoint root_of (s : State) (fuel : nat) (r : ref) : option ref :=
  match fuel with
  | O => None
  | S fuel' =>
      match section_at s r with
      | None => None
      | Some sec =>
          match sec_parent sec with
          | None => Some r
          | Some c => root_of s fuel' (conn_parent c)
          end
      end
  end.

(** The section reached from [r] after [k] parent connections. *)
Fixpoint ancestor (s : State) (k : nat) (r : ref) : option ref :=
  match k with
  | O => Some r
  | S k' =>
      match parent_of s r with
      | Some p => ancestor s k' p
      | None => None
      end
  end.

(** *** The morphology, free of references

    The tree a cell owns, with every parent connection given as the position
    of the parent in [cell_sections] instead of a reference into the store:
    two cells have the same morphology when their trees are structurally
    identical, wherever their sections live in the store. *)

Fixpoint index_of (r : ref) (l : list ref) : option nat :=
  match l with
  | [] => None
  | x :: l' => if Nat.eqb x r then Some O else option_map S (index_of r l')
  end.

(** The section [r] refers to, its parent rewritten as a position in [cell];
    undefined when the section or its parent is not there. *)
Definition local_section (s : State) (cell : list ref) (r : ref) : option Section :=
  match section_at s r with
  | None => None
  | Some sec =>
      match sec_parent sec with
      | None => Some sec
      | Some c =>
          match index_of (conn_parent c) cell with
          | None => None
          | Some i => Some (with_parent (mkConnection i (conn_end c)) sec)
          end
      end
  end.

Fixpoint local_sections (s : State) (cell l : list ref) : option (list Section) :=
  match l with
  | [] => Some []
  | r :: l' =>
      match local_section s cell r, local_sections s cell l' with
      | Some sec, Some secs => Some (sec :: secs)
      | _, _ => None
      end
  end.

Record Morphology : Set := mkMorphology {
  soma_sections : list Section;
  dend_sections : list Section;
  axon_sections : list Section;
  parallel_fiber_y : float
}.

Definition morphology (s : State) : option Morphology :=
  match soma (self s), dend (self s), axon (self s), y_pf (self s) with
  | Some so, Some de, Some ax, Some y =>
      let cell := so ++ de ++ ax in
      match local_sections s cell so, local_sections s cell de,
            local_sections s cell ax with
      | Some a, Some b, Some c => Some (mkMorphology a b c y)
      | _, _, _ => None
      end
  | _, _, _, _ => None
  end.

(** *** Closed forms

    The sections the two loops of the builder leave in the store, as
    functions of the loop index. *)

(** The distance below its origin of the point [j] of a dendrite of length
    [len]: [len * j / 10]. *)
Definition descent (len : float) (j : nat) : float :=
  (len * Py.float_of_int (Z.of_nat j) / Py.float_of_int 10)%float.

(** The origin of the dendrite [i]: the position moved along X by
    [(i - 1.5) * 2]. *)
Definition dendrite_origin (P : Vec3) (i : nat) : Vec3 :=
  add_x P ((Py.float_of_int (Z.of_nat i) - 1.5) * 2)%float.

(** The dendrite [i], connected to the soma [so]. *)
Definition dendrite_section (P : Vec3) (so : ref) (i : nat) : Section :=
  mkSection None (Some 15%float) (Some 0.75%float) None
    (map (fun j => sub_y (dendrite_origin P i) (descent 15 j)) (seq 0 10))
    []
    (Some (mkConnection so (Some 0))).

(** [sign] and [z] of the parallel-fiber compartment [id]. *)
Definition pf_sign (id : nat) : Z := 1 - (Z.of_nat id mod 2) * 2.
Definition pf_z (id : nat) : Z := (Z.of_nat id / 2) * 20.

(** The parallel-fiber compartment [id], for the ascending axon [aa] and the
    list [pf] of all parallel-fiber compartments. *)
Definition parallel_fiber_section (P : Vec3) (aa : ref) (pf : list ref) (id : nat)
  : Section :=
  mkSection
    (Some ("parellel_fiber_" ++ Py.str (Z.of_nat id))%string)
    (Some 20%float) (Some 0.3%float) None
    [vadd P (vec3 0 142.62232
               (vz P + Py.float_of_int (pf_sign id * pf_z id)));
     vadd P (vec3 0 142.62232
               (vz P + Py.float_of_int (pf_sign id * (pf_z id + 20))))]
    ["parallel_fiber"%string]
    (Some (mkConnection (if (id <? 2)%nat then aa else nth (id - 2) pf aa) None)).

(** The extent of the parallel-fiber compartment [id] as the specification
    states it: at the Y offset [y_pf] above the position, from [sign * z] to
    [sign * (z + 20)] away from the center Z coordinate, the Z component of
    the position. *)
Definition spec_parallel_fiber_points (P : Vec3) (id : nat) : list Vec3 :=
  [vec3 (vx P) (vy P + 142.62232) (vz P + Py.float_of_int (pf_sign id * pf_z id));
   vec3 (vx P) (vy P + 142.62232)
     (vz P + Py.float_of_int (pf_sign id * (pf_z id + 20)))].

(** *** The tree *)

(** Decides whether the section [r] of a cell is its root, or has a parent
    that belongs to the cell and was created earlier, and leads to the root. *)
Definition well_parented (s : State) (cell : list ref) (root r : ref) : bool :=
  Nat.eqb r root
  || match parent_of s r with
     | Some p =>
         existsb (Nat.eqb p) cell
         && Nat.ltb p r
         && match root_of s (length cell) r with
            | Some x => Nat.eqb x root
            | None => false
            end
     | None => false
     end.

(** *** Two instances at the same position

    A new instance in an empty simulator, and an instance on which attributes
    are already assigned, in a simulator that holds two sections. *)
Definition example_position : Vec3 := vec3 12.5 (-3) 40.

Definition example_new : State := initial example_position.

Definition example_used : State :=
  mkState
    (mkModel example_position (Some 5) None (Some 9) None (Some [1%nat]) None
       (Some [0%nat; 1%nat]) None (Some 0%nat) None (Some 1.5%float) None)
    [with_L 3 (fresh_section None);
     with_parent (mkConnection 0 (Some 1)) (fresh_section (Some "old"%string))].

(** ** Parameter tables *)

(** An entry of a ["mechanisms"] list: a name, or a (name, variant) pair. *)
Inductive Mechanism : Set :=
| Mech (name : string)
| MechVariant (name variant : string).

(** A key of a section ["attributes"] dict: a name, or an (attribute,
    mechanism) pair. *)
Inductive AttrKey : Set :=
| Attr (name : string)
| MechAttr (name mech : string).

(** A numeric literal, as written: [int] or [float]. *)
Inductive Num : Set :=
| Int (z : Z)
| Float (f : float).

(** The dicts are embedded as association lists in source order. *)
Record SynapseType : Set := mkSynapseType {
  point_process : string * string;
  syn_attributes : list (string * Num)
}.

Record SectionType : Set := mkSectionType {
  synapses : option (list string);
  mechanisms : list Mechanism;
  attributes : list (AttrKey * Num)
}.

Local Open Scope string_scope.

Module GranuleCell.

Definition synapse_types : list (string * SynapseType) :=
  [ ("AMPA",
     mkSynapseType ("AMPA", "granule")
       [("tau_facil", Int 5); ("tau_rec", Int 8); ("tau_1", Int 1);
        ("gmax", Int 1400); ("U", Float 0.43)]);
    ("NMDA",
     mkSynapseType ("NMDA", "granule")
       [("tau_facil", Int 5); ("tau_rec", Int 8); ("tau_1", Int 1);
        ("gmax", Int 23500); ("U", Float 0.43)]);
    ("GABA",
     mkSynapseType ("GABA", "granule")
       [("U", Float 0.35)]) ].

Definition section_types : list (string * SectionType) :=
  [ ("soma",
     mkSectionType None
       [Mech "Leak"; Mech "Kv3_4"; Mech "Kv4_3"; Mech "Kir2_3"; Mech "Ca";
        Mech "Kv1_1"; Mech "Kv1_5"; Mech "Kv2_2"; MechVariant "cdp5" "CR"]
       [(Attr "Ra", Int 100); (Attr "cm", Int 2);
        (MechAttr "e" "Leak", Int (-60)); (Attr "ek", Int (-88));
        (Attr "eca", Float 137.5);
        (MechAttr "gmax" "Leak", Float 0.00029038073716);
        (MechAttr "gkbar" "Kv3_4", Float 0.00076192450951999995);
        (MechAttr "gkbar" "Kv4_3", Float 0.0028149683906099998);
        (MechAttr "gkbar" "Kir2_3", Float 0.00074725514701999996);
        (MechAttr "gcabar" "Ca", Float 0.00060938071783999998);
        (MechAttr "gbar" "Kv1_1", Float 0.0056973826455499997);
        (MechAttr "gKur" "Kv1_5", Float 0.00083407556713999999);
        (MechAttr "gKv2_2bar" "Kv2_2", Float 1.203410852e-05)]);
    ("dendrites",
     mkSectionType (Some ["NMDA"; "AMPA"; "GABA"])
       [Mech "Leak"; MechVariant "Leak" "GABA"; Mech "Ca"; Mech "Kca1_1";
        Mech "Kv1_1"; MechVariant "cdp5" "CR"]
       [(Attr "Ra", Int 100); (Attr "cm", Float 2.5);
        (MechAttr "e" "Leak", Int (-60)); (Attr "ek", Int (-88));
        (Attr "eca", Float 137.5);
        (MechAttr "gmax" "Leak", Float 0.00025029700736999997);
        (MechAttr "gcabar" "Ca", Float 0.0050012800845900002);
        (MechAttr "gbar" "Kca1_1", Float 0.010018074546510001);
        (MechAttr "gbar" "Kv1_1", Float 0.00381819207934)]);
    ("axon",
     mkSectionType None
       []
       []);
    ("ascending_axon",
     mkSectionType None
       [MechVariant "Na" "granule_cell"; Mech "Kv3_4"; Mech "Leak";
        Mech "Ca"; MechVariant "cdp5" "CR"]
       [(Attr "Ra", Int 100); (Attr "cm", Int 1); (Attr "ena", Float 87.39);
        (Attr "ek", Int (-88)); (MechAttr "e" "Leak", Int (-60));
        (Attr "eca", Float 137.5);
        (MechAttr "gnabar" "Na", Float 0.026301636815019999);
        (MechAttr "gkbar" "Kv3_4", Float 0.00237386061632);
        (MechAttr "gmax" "Leak", Float 9.3640921249999996e-05);
        (MechAttr "gcabar" "Ca", Float 0.00068197420273000001)]);
    ("parallel_fiber",
     mkSectionType None
       [MechVariant "Na" "granule_cell"; Mech "Kv3_4"; Mech "Leak";
        Mech "Ca"; MechVariant "cdp5" "CR"]
       [(Attr "L", Int 20); (Attr "diam", Float 0.15); (Attr "Ra", Int 100);
        (Attr "cm", Int 1); (Attr "ena", Float 87.39);
        (Attr "ek", Int (-88)); (MechAttr "e" "Leak", Int (-60));
        (Attr "eca", Float 137.5);
        (MechAttr "gnabar" "Na", Float 0.017718484492610001);
        (MechAttr "gkbar" "Kv3_4", Float 0.0081756804703699993);
        (MechAttr "gmax" "Leak", Float 3.5301616000000001e-07);
        (MechAttr "gcabar" "Ca", Float 0.00020856833529999999)]);
    ("axon_initial_segment",
     mkSectionType None
       [MechVariant "Na" "granule_cell_FHF"; Mech "Kv3_4"; Mech "Leak";
        Mech "Ca"; Mech "Km"; MechVariant "cdp5" "CR"]
       [(Attr "Ra", Int 100); (Attr "cm", Int 1); (Attr "ena", Float 87.39);
        (Attr "ek", Int (-88)); (Attr "eca", Float 137.5);
        (MechAttr "e" "Leak", Int (-60));
        (MechAttr "gnabar" "Na", Float 1.28725006737226);
        (MechAttr "gkbar" "Kv3_4", Float 0.0064959534065400001);
        (MechAttr "gmax" "Leak", Float 0.00029276697557000002);
        (MechAttr "gcabar" "Ca", Float 0.00031198539471999999);
        (MechAttr "gkbar" "Km", Float 0.00056671971737000002)]);
    ("axon_hillock",
     mkSectionType None
       [Mech "Leak"; MechVariant "Na" "granule_cell_FHF"; Mech "Kv3_4";
        Mech "Ca"; MechVariant "cdp5" "CR"]
       [(Attr "Ra", Int 100); (Attr "cm", Int 2);
        (MechAttr "e" "Leak", Int (-60)); (Attr "ena", Float 87.39);
        (Attr "ek", Int (-88)); (Attr "eca", Float 137.5);
        (MechAttr "gmax" "Leak", Float 0.00036958189720000001);
        (MechAttr "gnabar" "Na", Float 0.0092880585146199995);
        (MechAttr "gkbar" "Kv3_4", Float 0.020373463109149999);
        (MechAttr "gcabar" "Ca", Float 0.00057726155447)]) ].

End GranuleCell.

Module GranuleCellMildAdapting.

Definition synapse_types : list (string * SynapseType) :=
  [ ("AMPA",
     mkSynapseType ("AMPA", "granule")
       [("tau_facil", Int 5); ("tau_rec", Int 8); ("tau_1", Int 1);
        ("gmax", Int 1400); ("U", Float 0.43)]);
    ("NMDA",
     mkSynapseType ("NMDA", "granule")
       [("tau_facil", Int 5); ("tau_rec", Int 8); ("tau_1", Int 1);
        ("gmax", Int 23500); ("U", Float 0.43)]);
    ("GABA",
     mkSynapseType ("GABA", "granule")
       [("U", Float 0.35)]) ].

Definition section_types : list (string * SectionType) :=
  [ ("soma",
     mkSectionType None
       [Mech "Leak"; Mech "Kv3_4"; Mech "Kv4_3"; Mech "Kir2_3"; Mech "Ca";
        Mech "Kv1_1"; Mech "Kv1_5"; Mech "Kv2_2"; MechVariant "cdp5" "CR"]
       [(Attr "Ra", Int 100); (Attr "cm", Int 2);
        (MechAttr "e" "Leak", Int (-60)); (Attr "ek", Int (-88));
        (Attr "eca", Float 137.5);
        (MechAttr "gmax" "Leak", Float 0.00020821612897999999);
        (MechAttr "gkbar" "Kv3_4", Float 0.00053837153610999998);
        (MechAttr "gkbar" "Kv4_3", Float 0.0032501728450999999);
        (MechAttr "gkbar" "Kir2_3", Float 0.00080747403035999997);
        (MechAttr "gcabar" "Ca", Float 0.00066384354030999998);
        (MechAttr "gbar" "Kv1_1", Float 0.0046520692281700003);
        (MechAttr "gKur" "Kv1_5", Float 0.00106988075956);
        (MechAttr "gKv2_2bar" "Kv2_2", Float 2.5949576899999998e-05)]);
    ("dendrites",
     mkSectionType (Some ["NMDA"; "AMPA"; "GABA"])
       [Mech "Leak"; MechVariant "Leak" "GABA"; Mech "Ca"; Mech "Kca1_1";
        Mech "Kv1_1"; MechVariant "cdp5" "CR"]
       [(Attr "Ra", Int 100); (Attr "cm", Float 2.5);
        (MechAttr "e" "Leak", Int (-60)); (Attr "ek", Int (-88));
        (Attr "eca", Float 137.5);
        (MechAttr "gmax" "Leak", Float 0.00020424219215);
        (MechAttr "gcabar" "Ca", Float 0.01841833779253);
        (MechAttr "gbar" "Kca1_1", Float 0.02998872868395);
        (MechAttr "gbar" "Kv1_1", Float 0.00010675447184)]);
    ("axon",
     mkSectionType None
       []
       []);
    ("ascending_axon",
     mkSectionType None
       [MechVariant "Na" "granule_cell"; Mech "Kv3_4"; Mech "Leak";
        Mech "Ca"; MechVariant "cdp5" "CR"]
       [(Attr "Ra", Int 100); (Attr "cm", Int 1); (Attr "ena", Float 87.39);
        (Attr "ek", Int (-88)); (MechAttr "e" "Leak", Int (-60));
        (Attr "eca", Float 137.5);
        (MechAttr "gnabar" "Na", Float 0.029973709719629999);
        (MechAttr "gkbar" "Kv3_4", Float 0.0046029972380800003);
        (MechAttr "gmax" "Leak", Float 7.8963697590000003e-05);
        (MechAttr "gcabar" "Ca", Float 0.00059214434259999998)]);
    ("parallel_fiber",
     mkSectionType None
       [MechVariant "Na" "granule_cell"; Mech "Kv3_4"; Mech "Leak";
        Mech "Ca"; MechVariant "cdp5" "CR"]
       [(Attr "L", Int 20); (Attr "diam", Float 0.15); (Attr "Ra", Int 100);
        (Attr "cm", Int 1); (Attr "ena", Float 87.39);
        (Attr "ek", Int (-88)); (MechAttr "e" "Leak", Int (-60));
        (Attr "eca", Float 137.5);
        (MechAttr "gnabar" "Na", Float 0.01896618618573);
        (MechAttr "gkbar" "Kv3_4", Float 0.0094015060525799998);
        (MechAttr "gmax" "Leak", Float 4.1272473000000001e-07);
        (MechAttr "gcabar" "Ca", Float 0.00064742320254000001)]);
    ("axon_initial_segment",
     mkSectionType None
       [MechVariant "Na" "granule_cell_FHF"; Mech "Kv3_4"; Mech "Leak";
        Mech "Ca"; Mech "Km"; MechVariant "cdp5" "CR"]
       [(Attr "Ra", Int 100); (Attr "cm", Int 1); (Attr "ena", Float 87.39);
        (Attr "ek", Int (-88)); (Attr "eca", Float 137.5);
        (MechAttr "e" "Leak", Int (-60));
        (MechAttr "gnabar" "Na", Float 1.06883116205825);
        (MechAttr "gkbar" "Kv3_4", Float 0.034592458064240002);
        (MechAttr "gmax" "Leak", Float 0.00025011065810000001);
        (MechAttr "gcabar" "Ca", Float 0.00011630629281);
        (MechAttr "gkbar" "Km", Float 0.00044764153078999998)]);
    ("axon_hillock",
     mkSectionType None
       [Mech "Leak"; MechVariant "Na" "granule_cell_FHF"; Mech "Kv3_4";
        Mech "Ca"; MechVariant "cdp5" "CR"]
       [(Attr "Ra", Int 100); (Attr "cm", Int 2);
        (MechAttr "e" "Leak", Int (-60)); (Attr "ena", Float 87.39);
        (Attr "ek", Int (-88)); (Attr "eca", Float 137.5);
        (MechAttr "gmax" "Leak", Float 0.00025295417368000002);
        (MechAttr "gnabar" "Na", Float 0.011082499796400001);
        (MechAttr "gkbar" "Kv3_4", Float 0.050732563882920002);
        (MechAttr "gcabar" "Ca", Float 0.00028797253573000002)]) ].

End GranuleCellMildAdapting.

Module GranuleCellAdapting.

Definition synapse_types : list (string * SynapseType) :=
  [ ("AMPA",
     mkSynapseType ("AMPA", "granule")
       [("tau_facil", Int 5); ("tau_rec", Int 8); ("tau_1", Int 1);
        ("gmax", Int 1400); ("U", Float 0.43)]);
    ("NMDA",
     mkSynapseType ("NMDA", "granule")
       [("tau_facil", Int 5); ("tau_rec", Int 8); ("tau_1", Int 1);
        ("gmax", Int 23500); ("U", Float 0.43)]);
    ("GABA",
     mkSynapseType ("GABA", "granule")
       [("U", Float 0.35)]) ].

Definition section_types : list (string * SectionType) :=
  [ ("soma",
     mkSectionType None
       [Mech "Leak"; Mech "Kv3_4"; Mech "Kv4_3"; Mech "Kir2_3"; Mech "Ca";
        Mech "Kv1_1"; Mech "Kv1_5"; Mech "Kv2_2"; MechVariant "cdp5" "CR"]
       [(Attr "Ra", Int 100); (Attr "cm", Int 2);
        (MechAttr "e" "Leak", Int (-60)); (Attr "ek", Int (-88));
        (Attr "eca", Float 137.5);
        (MechAttr "gmax" "Leak", Float 0.00027672909671000001);
        (MechAttr "gkbar" "Kv3_4", Float 0.00373151328841);
        (MechAttr "gkbar" "Kv4_3", Float 0.0027313162972600002);
        (MechAttr "gkbar" "Kir2_3", Float 0.00094360184424999995);
        (MechAttr "gcabar" "Ca", Float 0.00029165028328999998);
        (MechAttr "gbar" "Kv1_1", Float 0.0031675812802999998);
        (MechAttr "gKur" "Kv1_5", Float 0.00107176612352);
        (MechAttr "gKv2_2bar" "Kv2_2", Float 6.710092624e-05)]);
    ("dendrites",
     mkSectionType (Some ["NMDA"; "AMPA"; "GABA"])
       [Mech "Leak"; MechVariant "Leak" "GABA"; Mech "Ca"; Mech "Kca1_1";
        Mech "Kv1_1"; MechVariant "cdp5" "CR"]
       [(Attr "Ra", Int 100); (Attr "cm", Float 2.5);
        (MechAttr "e" "Leak", Int (-60)); (Attr "ek", Int (-88));
        (Attr "eca", Float 137.5);
        (MechAttr "gmax" "Leak", Float 0.00029871180381000001);
        (MechAttr "gcabar" "Ca", Float 0.024687091736070001);
        (MechAttr "gbar" "Kca1_1", Float 0.01185742892862);
        (MechAttr "gbar" "Kv1_1", Float 0.00015853886699000001)]);
    ("axon",
     mkSectionType None
       []
       []);
    ("ascending_axon",
     mkSectionType None
       [MechVariant "Na" "granule_cell"; Mech "Kv3_4"; Mech "Leak";
        Mech "Ca"; MechVariant "cdp5" "CR"]
       [(Attr "Ra", Int 100); (Attr "cm", Int 1); (Attr "ena", Float 87.39);
        (Attr "ek", Int (-88)); (MechAttr "e" "Leak", Int (-60));
        (Attr "eca", Float 137.5);
        (MechAttr "gnabar" "Na", Float 0.025441894508310001);
        (MechAttr "gkbar" "Kv3_4", Float 0.0046504514953399998);
        (MechAttr "gmax" "Leak", Float 5.3037170669999997e-05);
        (MechAttr "gcabar" "Ca", Float 0.00031374692347000001)]);
    ("parallel_fiber",
     mkSectionType None
       [MechVariant "Na" "granule_cell"; Mech "Kv3_4"; Mech "Leak";
        Mech "Ca"; MechVariant "cdp5" "CR"]
       [(Attr "L", Int 20); (Attr "diam", Float 0.15); (Attr "Ra", Int 100);
        (Attr "cm", Int 1); (Attr "ena", Float 87.39);
        (Attr "ek", Int (-88)); (MechAttr "e" "Leak", Int (-60));
        (Attr "eca", Float 137.5);
        (MechAttr "gnabar" "Na", Float 0.0142518259615);
        (MechAttr "gkbar" "Kv3_4", Float 0.0098649550733799999);
        (MechAttr "gmax" "Leak", Float 1.4118927999999999e-07);
        (MechAttr "gcabar" "Ca", Float 0.00024821458382999999)]);
    ("axon_initial_segment",
     mkSectionType None
       [MechVariant "Na" "granule_cell_FHF"; Mech "Kv3_4"; Mech "Leak";
        Mech "Ca"; Mech "Km"; MechVariant "cdp5" "CR"]
       [(Attr "Ra", Int 100); (Attr "cm", Int 1); (Attr "ena", Float 87.39);
        (Attr "ek", Int (-88)); (Attr "eca", Float 137.5);
        (MechAttr "e" "Leak", Int (-60));
        (MechAttr "gnabar" "Na", Float 1.5810107836409499);
        (MechAttr "gkbar" "Kv3_4", Float 0.039582385081389997);
        (MechAttr "gmax" "Leak", Float 0.00025512657995000002);
        (MechAttr "gcabar" "Ca", Float 0.00038160760886000002);
        (MechAttr "gkbar" "Km", Float 0.00049717923887)]);
    ("axon_hillock",
     mkSectionType None
       [Mech "Leak"; MechVariant "Na" "granule_cell_FHF"; Mech "Kv3_4";
        Mech "Ca"; MechVariant "cdp5" "CR"]
       [(Attr "Ra", Int 100); (Attr "cm", Int 2);
        (MechAttr "e" "Leak", Int (-60)); (Attr "ena", Float 87.39);
        (Attr "ek", Int (-88)); (Attr "eca", Float 137.5);
        (MechAttr "gmax" "Leak", Float 0.00031475453130000002);
        (MechAttr "gnabar" "Na", Float 0.020910983616370001);
        (MechAttr "gkbar" "Kv3_4", Float 0.03097630887484);
        (MechAttr "gcabar" "Ca", Float 0.00019803691988000001)]) ].

End GranuleCellAdapting.

Module GranuleCellAccelerate.

Definition synapse_types : list (string * SynapseType) :=
  [ ("AMPA",
     mkSynapseType ("AMPA", "granule")
       [("tau_facil", Int 5); ("tau_rec", Int 8); ("tau_1", Int 1);
        ("gmax", Int 1400); ("U", Float 0.43)]);
    ("NMDA",
     mkSynapseType ("NMDA", "granule")
       [("tau_facil", Int 5); ("tau_rec", Int 8); ("tau_1", Int 1);
        ("gmax", Int 23500); ("U", Float 0.43)]);
    ("GABA",
     mkSynapseType ("GABA", "granule")
       [("U", Float 0.35)]) ].

Definition section_types : list (string * SectionType) :=
  [ ("soma",
     mkSectionType None
       [Mech "Leak"; Mech "Kv3_4"; Mech "Kv4_3"; Mech "Kir2_3"; Mech "Ca";
        Mech "Kv1_1"; Mech "Kv1_5"; Mech "Kv2_2"; MechVariant "cdp5" "CAM"]
       [(Attr "Ra", Int 100); (Attr "cm", Int 2);
        (MechAttr "e" "Leak", Int (-60)); (Attr "ek", Int (-88));
        (Attr "eca", Float 137.5);
        (MechAttr "gmax" "Leak", Float 0.00029038073716);
        (MechAttr "gkbar" "Kv3_4", Float 0.00076192450951999995);
        (MechAttr "gkbar" "Kv4_3", Float 0.0028149683906099998);
        (MechAttr "gkbar" "Kir2_3", Float 0.00074725514701999996);
        (MechAttr "gcabar" "Ca", Float 0.00060938071783999998);
        (MechAttr "gbar" "Kv1_1", Float 0.0056973826455499997);
        (MechAttr "gKur" "Kv1_5", Float 0.00083407556713999999);
        (MechAttr "gKv2_2bar" "Kv2_2", Float 1.203410852e-05)]);
    ("dendrites",
     mkSectionType (Some ["NMDA"; "AMPA"; "GABA"])
       [Mech "Leak"; MechVariant "Leak" "GABA"; Mech "Ca"; Mech "Kca1_1";
        Mech "Kv1_1"; MechVariant "cdp5" "CAM"]
       [(Attr "Ra", Int 100); (Attr "cm", Float 2.5);
        (MechAttr "e" "Leak", Int (-60)); (Attr "ek", Int (-88));
        (Attr "eca", Float 137.5);
        (MechAttr "gmax" "Leak", Float 0.00025029700736999997);
        (MechAttr "gcabar" "Ca", Float 0.0050012800845900002);
        (MechAttr "gbar" "Kca1_1", Float 0.010018074546510001);
        (MechAttr "gbar" "Kv1_1", Float 0.00381819207934)]);
    ("axon",
     mkSectionType None
       []
       []);
    ("ascending_axon",
     mkSectionType None
       [MechVariant "Na" "granule_cell"; Mech "Kv3_4"; Mech "Leak";
        Mech "Ca"; MechVariant "cdp5" "CAM"]
       [(Attr "Ra", Int 100); (Attr "cm", Int 1); (Attr "ena", Float 87.39);
        (Attr "ek", Int (-88)); (MechAttr "e" "Leak", Int (-60));
        (Attr "eca", Float 137.5);
        (MechAttr "gnabar" "Na", Float 0.026301636815019999);
        (MechAttr "gkbar" "Kv3_4", Float 0.00237386061632);
        (MechAttr "gmax" "Leak", Float 9.3640921249999996e-05);
        (MechAttr "gcabar" "Ca", Float 0.00068197420273000001)]);
    ("parallel_fiber",
     mkSectionType None
       [MechVariant "Na" "granule_cell"; Mech "Kv3_4"; Mech "Leak";
        Mech "Ca"; MechVariant "cdp5" "CAM"]
       [(Attr "L", Int 20); (Attr "diam", Float 0.15); (Attr "Ra", Int 100);
        (Attr "cm", Int 1); (Attr "ena", Float 87.39);
        (Attr "ek", Int (-88)); (MechAttr "e" "Leak", Int (-60));
        (Attr "eca", Float 137.5);
        (MechAttr "gnabar" "Na", Float 0.017718484492610001);
        (MechAttr "gkbar" "Kv3_4", Float 0.0081756804703699993);
        (MechAttr "gmax" "Leak", Float 3.5301616000000001e-07);
        (MechAttr "gcabar" "Ca", Float 0.00020856833529999999)]);
    ("axon_initial_segment",
     mkSectionType None
       [MechVariant "Na" "granule_cell_FHF"; Mech "Kv3_4"; Mech "Leak";
        Mech "Ca"; Mech "Km"; MechVariant "cdp5" "CAM"]
       [(Attr "Ra", Int 100); (Attr "cm", Int 1); (Attr "ena", Float 87.39);
        (Attr "ek", Int (-88)); (Attr "eca", Float 137.5);
        (MechAttr "e" "Leak", Int (-60));
        (MechAttr "gnabar" "Na", Float 1.28725006737226);
        (MechAttr "gkbar" "Kv3_4", Float 0.0064959534065400001);
        (MechAttr "gmax" "Leak", Float 0.00029276697557000002);
        (MechAttr "gcabar" "Ca", Float 0.00031198539471999999);
        (MechAttr "gkbar" "Km", Float 0.00056671971737000002)]);
    ("axon_hillock",
     mkSectionType None
       [Mech "Leak"; MechVariant "Na" "granule_cell_FHF"; Mech "Kv3_4";
        Mech "Ca"; MechVariant "cdp5" "CAM"]
       [(Attr "Ra", Int 100); (Attr "cm", Int 2);
        (MechAttr "e" "Leak", Int (-60)); (Attr "ena", Float 87.39);
        (Attr "ek", Int (-88)); (Attr "eca", Float 137.5);
        (MechAttr "gmax" "Leak", Float 0.00036958189720000001);
        (MechAttr "gnabar" "Na", Float 0.0092880585146199995);
        (MechAttr "gkbar" "Kv3_4", Float 0.020373463109149999);
        (MechAttr "gcabar" "Ca", Float 0.00057726155447)]) ].

End GranuleCellAccelerate.

Local Close Scope string_scope.

(** *** The structure of a section table *)

Definition is_cdp5 (m : Mechanism) : bool :=
  match m with
  | MechVariant name _ => String.eqb name "cdp5"
  | Mech _ => false
  end.

(** Conductance attributes: the per-mechanism keys [gmax], [gkbar], [gcabar],
    [gbar], [gKur], [gKv2_2bar] and [gnabar]. *)
Definition is_conductance (k : AttrKey) : bool :=
  match k with
  | MechAttr name _ => String.prefix "g" name
  | Attr _ => false
  end.

(** A mechanism with the variant tag of [cdp5] blanked. *)
Definition mask_mechanism (m : Mechanism) : Mechanism :=
  match m with
  | MechVariant name _ => if is_cdp5 m then MechVariant name "" else m
  | Mech _ => m
  end.

(** An attribute with its value blanked when it is a conductance. *)
Definition mask_attribute (kv : AttrKey * Num) : AttrKey * option Num :=
  (fst kv, if is_conductance (fst kv) then None else Some (snd kv)).

(** A section table with conductance values and [cdp5] tags blanked: roles,
    synapse lists, mechanism lists, attribute keys and all other values stay. *)
Definition structure (t : list (string * SectionType))
  : list (string * (option (list string) * list Mechanism * list (AttrKey * option Num))) :=
  map (fun entry =>
         (fst entry,
          (synapses (snd entry),
           map mask_mechanism (mechanisms (snd entry)),
           map mask_attribute (attributes (snd entry))))) t.

(** The variant tags of the [cdp5] mechanisms of a table, in order. *)
Definition cdp5_tags (t : list (string * SectionType)) : list string :=
  flat_map (fun entry =>
              flat_map (fun m => match m with
                                 | MechVariant name v => if is_cdp5 m then [v] else []
                                 | Mech _ => []
                                 end) (mechanisms (snd entry))) t.

(** The conductance attributes of a table, by role. *)
Definition conductances (t : list (string * SectionType)) : list (string * AttrKey * Num) :=
  flat_map (fun entry =>
              map (fun kv => (fst entry, fst kv, snd kv))
                  (filter (fun kv => is_conductance (fst kv)) (attributes (snd entry)))) t.

(** ** Further observations *)

(** The first and the last 3-D point of a section. *)
Definition proximal (sec : Section) : option Vec3 := hd_error (sec_pt3d sec).
Definition distal (sec : Section) : option Vec3 := hd_error (rev (sec_pt3d sec)).

(** Decides whether the labels of the section [r] satisfy [ok]. *)
Definition labels_satisfy (s : State) (ok : list string -> bool) (r : ref) : bool :=
  match section_at s r with
  | Some sec => ok (sec_labels sec)
  | None => false
  end.

(** ** The tables of the four classes *)

Definition all_synapse_types : list (list (string * SynapseType)) :=
  [GranuleCell.synapse_types; GranuleCellMildAdapting.synapse_types;
   GranuleCellAdapting.synapse_types; GranuleCellAccelerate.synapse_types].

Definition all_section_types : list (list (string * SectionType)) :=
  [GranuleCell.section_types; GranuleCellMildAdapting.section_types;
   GranuleCellAdapting.section_types; GranuleCellAccelerate.section_types].

(** The classes, each with its two tables. *)
Definition classes
  : list (list (string * SynapseType) * list (string * SectionType)) :=
  combine all_synapse_types all_section_types.

(** [[l] is a role of every class]. *)
Definition is_role_everywhere (l : string) : bool :=
  forallb (fun t => existsb (String.eqb l) (map fst t)) all_section_types.

Definition mechanism_name (m : Mechanism) : string :=
  match m with
  | Mech name => name
  | MechVariant name _ => name
  end.

Definition has_mechanism (name : string) (st : SectionType) : bool :=
  existsb (fun m => String.eqb (mechanism_name m) name) (mechanisms st).

(** The conductance attributes of the mechanism [name] in a section type. *)
Definition conductances_of (name : string) (st : SectionType) : list (AttrKey * Num) :=
  filter (fun kv => match fst kv with
                    | MechAttr a m => String.prefix "g" a && String.eqb m name
                    | Attr _ => false
                    end) (attributes st).

Definition AttrKey_eqb (a b : AttrKey) : bool :=
  match a, b with
  | Attr x, Attr y => String.eqb x y
  | MechAttr x m, MechAttr y n => String.eqb x y && String.eqb m n
  | _, _ => false
  end.

Definition Mechanism_eqb (a b : Mechanism) : bool :=
  match a, b with
  | Mech x, Mech y => String.eqb x y
  | MechVariant x v, MechVariant y w => String.eqb x y && String.eqb v w
  | _, _ => false
  end.

(** [d[k]] on a dict embedded as an association list: the first entry of
    key [k]. *)
Fixpoint lookup {K V} (eqb : K -> K -> bool) (k : K) (d : list (K * V)) : option V :=
  match d with
  | [] => None
  | (k', v) :: d' => if eqb k' k then Some v else lookup eqb k d'
  end.

(** Decides whether the elements of a list are pairwise distinct. *)
Fixpoint distinct {K} (eqb : K -> K -> bool) (l : list K) : bool :=
  match l with
  | [] => true
  | x :: l' => negb (existsb (eqb x) l') && distinct eqb l'
  end.

(** ** Computations and the instance attributes *)



(** Decides whether every per-mechanism attribute of a section type names one
    of its mechanisms. *)
Definition attributes_name_mechanisms (st : SectionType) : bool :=
  forallb (fun kv => match fst kv with
                     | MechAttr _ m => has_mechanism m st
                     | Attr _ => true
                     end) (attributes st).

(** Decides whether every mechanism of a section type other than [cdp5] has
    exactly one conductance attribute. *)
Definition mechanisms_have_one_conductance (st : SectionType) : bool :=
  forallb (fun m => is_cdp5 m
                    || Nat.eqb (length (conductances_of (mechanism_name m) st)) 1)
          (mechanisms st).

(** An instance whose two section lengths are 0, with every other attribute
    the steps read assigned. *)
Definition example_zero_lengths : State :=
  mkState
    (mkModel example_position (Some 0) (Some 0) (Some 126) (Some 2000)
       (Some [0%nat]) (Some []) (Some [0%nat]) (Some 0%nat) (Some 0%nat)
       (Some 0%nat) (Some 142.62232%float) (Some []))
    [fresh_section None].


(** * Properties *)

(** ** Lists and the store *)

Lemma nth_error_shifted {A} (h l : list A) (r : nat) :
  nth_error (h ++ l) (r + length h) = nth_error l r.
Proof.
  rewrite nth_error_app2 by lia.
  f_equal. lia.
Qed.

Lemma update_nth_shifted {A} (f : A -> A) (h l : list A) (r : nat) :
  update_nth (r + length h) f (h ++ l) = h ++ update_nth r f l.
Proof.
  induction h as [|x h IH]; simpl.
  - now rewrite Nat.add_0_r.
  - rewrite Nat.add_succ_r. simpl. now rewrite IH.
Qed.

Lemma update_nth_map {A B} (g : A -> B) (f : A -> A) (f' : B -> B) (l : list A) (r : nat) :
  (forall x, f' (g x) = g (f x)) ->
  update_nth r f' (map g l) = map g (update_nth r f l).
Proof.
  intros Hf. revert r.
  induction l as [|x l IH]; intros [|r]; simpl; try reflexivity.
  - now rewrite Hf.
  - now rewrite IH.
Qed.

Lemma index_map {A B} (g : A -> B) (l : list A) (i : Z) :
  Py.index (map g l) i = option_map g (Py.index l i).
Proof.
  unfold Py.index. rewrite length_map.
  destruct (i <? 0)%Z; [destruct (_ <? 0)%Z|]; try reflexivity;
    apply nth_error_map.
Qed.

Lemma enumerate_map {A B} (g : A -> B) (l : list A) :
  Py.enumerate (map g l) = map (fun ir => (fst ir, g (snd ir))) (Py.enumerate l).
Proof.
  unfold Py.enumerate. rewrite length_map.
  generalize (Py.range (Z.of_nat (length l))). 
  induction l as [|x l IH]; intros [|i r]; simpl; try reflexivity.
  now rewrite IH.
Qed.

(** ** Python numbers on the builder's inputs *)

Example int_truediv_126_7 : option_map Py.int (Py.truediv 126 7) = Some (Some 18).
Proof. vm_compute. reflexivity. Qed.

Example int_truediv_2000_20 : option_map Py.int (Py.truediv 2000 20) = Some (Some 100).
Proof. vm_compute. reflexivity. Qed.

Example int_truncates : Py.int (-2.5) = Some (-2) /\ Py.int 2.5 = Some 2.
Proof. split; vm_compute; reflexivity. Qed.

Example floor_rounds_down : Py.floor (-2.5) = Some (-3) /\ Py.floor 49.5 = Some 49.
Proof. split; vm_compute; reflexivity. Qed.

Example truediv_by_zero : Py.truediv 126 0 = None.
Proof. reflexivity. Qed.

Example str_of_index : Py.str 0 = "0"%string /\ Py.str 99 = "99"%string.
Proof. split; vm_compute; reflexivity. Qed.

Example index_from_the_end : Py.index [10; 20; 30] (-1) = Some 30.
Proof. reflexivity. Qed.

Example index_out_of_range : Py.index [10; 20; 30] 3 = None.
Proof. reflexivity. Qed.

Example enumerate_pairs : Py.enumerate [7%nat; 8%nat] = [(0, 7%nat); (1, 8%nat)].
Proof. reflexivity. Qed.

(** ** The run from a new instance *)

Lemma builder_initial (P : Vec3) :
  GranuleBase.builder (initial P) = Some (tt, built P).
Proof. vm_compute. reflexivity. Qed.

(** The steps of the builder depend on one another: a step that reads an
    attribute no earlier step has assigned raises. *)
Example dendrites_need_the_soma (P : Vec3) :
  GranuleBase.build_dendrites (initial P) = None.
Proof. reflexivity. Qed.

Example parallel_fiber_needs_the_lengths (P : Vec3) :
  GranuleBase.build_parallel_fiber (initial P) = None.
Proof. reflexivity. Qed.

(** ** Relocation: the builder on any instance, in any store *)

Section RelocationFacts.

Variable h0 : list Section.

Local Abbreviation shift := (shift_ref h0).
Local Abbreviation same := (fun x => x).

Lemma sim_ret_with {A} (f : A -> A) (a : A) : sim h0 f (ret a) (ret (f a)).
Proof.
  intros s s' b t R H. inversion H; subst.
  eexists; split; [reflexivity | assumption].
Qed.

Lemma sim_ret {A} (a : A) : sim h0 same (ret a) (ret a).
Proof. exact (sim_ret_with same a). Qed.

Lemma sim_bind {A B} (f : A -> A) (g : B -> B) (p p' : M A) (k k' : A -> M B) :
  sim h0 f p p' ->
  (forall a, sim h0 g (k a) (k' (f a))) ->
  sim h0 g (bind p k) (bind p' k').
Proof.
  intros Hp Hk s s' b t R H. unfold bind in *.
  destruct (p s) as [[a u]|] eqn:E; [|discriminate].
  destruct (Hp _ _ _ _ R E) as (u' & E' & R').
  rewrite E'. exact (Hk a _ _ _ _ R' H).
Qed.

Lemma sim_lift {A} (o : option A) : sim h0 same (lift o) (lift o).
Proof.
  intros s s' b t R H. unfold lift in *.
  destruct o; inversion H; subst.
  eexists; split; [reflexivity | assumption].
Qed.

Lemma sim_index (l : list ref) (i : Z) :
  sim h0 shift (lift (Py.index l i)) (lift (Py.index (map shift l) i)).
Proof.
  intros s s' b t R H. unfold lift in *. rewrite index_map.
  destruct (Py.index l i); inversion H; subst.
  eexists; split; [reflexivity | assumption].
Qed.

Lemma sim_for_each {A} (g : A -> A) (l : list A) (body body' : A -> M unit) :
  (forall x, sim h0 same (body x) (body' (g x))) ->
  sim h0 same (for_each l body) (for_each (map g l) body').
Proof.
  intros Hb. induction l as [|x l IH]; simpl.
  - apply sim_ret.
  - eapply sim_bind; [apply Hb | intros _; exact IH].
Qed.

Lemma sim_for_each_same {A} (l : list A) (body body' : A -> M unit) :
  (forall x, sim h0 same (body x) (body' x)) ->
  sim h0 same (for_each l body) (for_each l body').
Proof.
  intros Hb. rewrite <- (map_id l) at 2. now apply sim_for_each.
Qed.

Lemma sim_for_each_enumerate (l : list ref) (body body' : Z * ref -> M unit) :
  (forall i r, sim h0 same (body (i, r)) (body' (i, shift r))) ->
  sim h0 same (for_each (Py.enumerate l) body)
              (for_each (Py.enumerate (map shift l)) body').
Proof.
  intros Hb. rewrite enumerate_map.
  apply sim_for_each. intros [i r]. apply Hb.
Qed.

Lemma sim_comprehension {A B} (f : B -> B) (l : list A) (body body' : A -> M B) :
  (forall x, sim h0 f (body x) (body' x)) ->
  sim h0 (map f) (comprehension l body) (comprehension l body').
Proof.
  intros Hb. induction l as [|x l IH]; simpl.
  - apply (sim_ret_with (map f) []).
  - eapply sim_bind; [apply Hb | intros y].
    eapply sim_bind; [exact IH | intros ys].
    apply (sim_ret_with (map f) (y :: ys)).
Qed.

Lemma sim_comprehension_same {A B} (l : list A) (body body' : A -> M B) :
  (forall x, sim h0 same (body x) (body' x)) ->
  sim h0 same (comprehension l body) (comprehension l body').
Proof.
  intros Hb s s' b t R H.
  destruct (sim_comprehension same l body body' Hb _ _ _ _ R H) as (t' & E & R').
  rewrite map_id in E. eauto.
Qed.

(** *** Attributes *)

Lemma sim_getattr {A} (field : Model -> option A) (f : A -> A) :
  (forall m, field (shift_model h0 m) = option_map f (field m)) ->
  (forall m m', rel_model h0 m m' -> agrees (field (shift_model h0 m)) (field m')) ->
  sim h0 f (getattr field) (getattr field).
Proof.
  intros Hf Hr s s' a t [Rm Rh] H. unfold getattr in *.
  destruct (field (self s)) eqn:E; inversion H; subst.
  specialize (Hr _ _ Rm). rewrite Hf, E in Hr. simpl in Hr.
  rewrite Hr. simpl. eexists; split; [reflexivity | split; assumption].
Qed.

Lemma sim_get_position : sim h0 same get_position get_position.
Proof.
  intros s s' a t [Rm Rh] H. inversion H; subst. unfold get_position.
  rewrite (rel_position _ _ _ Rm).
  eexists; split; [reflexivity | split; assumption].
Qed.

Lemma sim_setattr (upd upd' : Model -> Model) :
  (forall m m', rel_model h0 m m' -> rel_model h0 (upd m) (upd' m')) ->
  sim h0 same (setattr upd) (setattr upd').
Proof.
  intros Hu s s' a t [Rm Rh] H. inversion H; subst.
  eexists; split; [reflexivity | split; simpl; auto].
Qed.

Ltac field_same := intros m; simpl; now destruct m as [? [] [] [] [] [] [] [] [] [] [] [] []].
Ltac field_rel := intros m m' R; now destruct R.

Lemma sim_fiber_section_length :
  sim h0 same (getattr fiber_section_length) (getattr fiber_section_length).
Proof. apply sim_getattr; [field_same | field_rel]. Qed.

Lemma sim_fiber_segment_length :
  sim h0 same (getattr fiber_segment_length) (getattr fiber_segment_length).
Proof. apply sim_getattr; [field_same | field_rel]. Qed.

Lemma sim_ascending_axon_length :
  sim h0 same (getattr ascending_axon_length) (getattr ascending_axon_length).
Proof. apply sim_getattr; [field_same | field_rel]. Qed.

Lemma sim_parallel_fiber_length :
  sim h0 same (getattr parallel_fiber_length) (getattr parallel_fiber_length).
Proof. apply sim_getattr; [field_same | field_rel]. Qed.

Lemma sim_y_pf : sim h0 same (getattr y_pf) (getattr y_pf).
Proof. apply sim_getattr; [field_same | field_rel]. Qed.

Lemma sim_soma : sim h0 (map shift) (getattr soma) (getattr soma).
Proof. apply sim_getattr; [reflexivity | field_rel]. Qed.

Lemma sim_dend : sim h0 (map shift) (getattr dend) (getattr dend).
Proof. apply sim_getattr; [reflexivity | field_rel]. Qed.

Lemma sim_axon : sim h0 (map shift) (getattr axon) (getattr axon).
Proof. apply sim_getattr; [reflexivity | field_rel]. Qed.

Lemma sim_parallel_fiber :
  sim h0 (map shift) (getattr parallel_fiber) (getattr parallel_fiber).
Proof. apply sim_getattr; [reflexivity | field_rel]. Qed.

Lemma sim_axon_hillock : sim h0 shift (getattr axon_hillock) (getattr axon_hillock).
Proof. apply sim_getattr; [reflexivity | field_rel]. Qed.

Lemma sim_axon_initial_segment :
  sim h0 shift (getattr axon_initial_segment) (getattr axon_initial_segment).
Proof. apply sim_getattr; [reflexivity | field_rel]. Qed.

Lemma sim_ascending_axon :
  sim h0 shift (getattr ascending_axon) (getattr ascending_axon).
Proof. apply sim_getattr; [reflexivity | field_rel]. Qed.

Ltac setattr_rel :=
  apply sim_setattr; intros m m' R; destruct R; constructor; simpl; try assumption;
  try reflexivity.

Lemma sim_with_fiber_section_length v :
  sim h0 same (setattr (with_fiber_section_length v)) (setattr (with_fiber_section_length v)).
Proof. setattr_rel. Qed.

Lemma sim_with_fiber_segment_length v :
  sim h0 same (setattr (with_fiber_segment_length v)) (setattr (with_fiber_segment_length v)).
Proof. setattr_rel. Qed.

Lemma sim_with_ascending_axon_length v :
  sim h0 same (setattr (with_ascending_axon_length v))
              (setattr (with_ascending_axon_length v)).
Proof. setattr_rel. Qed.

Lemma sim_with_parallel_fiber_length v :
  sim h0 same (setattr (with_parallel_fiber_length v))
              (setattr (with_parallel_fiber_length v)).
Proof. setattr_rel. Qed.

Lemma sim_with_y_pf v : sim h0 same (setattr (with_y_pf v)) (setattr (with_y_pf v)).
Proof. setattr_rel. Qed.

Lemma sim_with_soma l l' :
  l' = map shift l -> sim h0 same (setattr (with_soma l)) (setattr (with_soma l')).
Proof. intros ->. setattr_rel. Qed.

Lemma sim_with_dend l l' :
  l' = map shift l -> sim h0 same (setattr (with_dend l)) (setattr (with_dend l')).
Proof. intros ->. setattr_rel. Qed.

Lemma sim_with_axon l l' :
  l' = map shift l -> sim h0 same (setattr (with_axon l)) (setattr (with_axon l')).
Proof. intros ->. setattr_rel. Qed.

Lemma sim_with_parallel_fiber l l' :
  l' = map shift l ->
  sim h0 same (setattr (with_parallel_fiber l)) (setattr (with_parallel_fiber l')).
Proof. intros ->. setattr_rel. Qed.

Lemma sim_with_axon_hillock r :
  sim h0 same (setattr (with_axon_hillock r)) (setattr (with_axon_hillock (shift r))).
Proof. setattr_rel. Qed.

Lemma sim_with_axon_initial_segment r :
  sim h0 same (setattr (with_axon_initial_segment r))
              (setattr (with_axon_initial_segment (shift r))).
Proof. setattr_rel. Qed.

Lemma sim_with_ascending_axon r :
  sim h0 same (setattr (with_ascending_axon r)) (setattr (with_ascending_axon (shift r))).
Proof. setattr_rel. Qed.

(** *** The section API *)

Lemma sim_new_Section name : sim h0 shift (new_Section name) (new_Section name).
Proof.
  intros s s' a t [Rm Rh] H. inversion H; subst. unfold new_Section.
  rewrite Rh. eexists; split.
  - rewrite length_app, length_map. unfold shift_ref.
    now rewrite (Nat.add_comm (length h0)).
  - split; simpl; [assumption|].
    now rewrite map_app, app_assoc.
Qed.

Lemma sim_read r : sim h0 (shift_section h0) (read r) (read (shift r)).
Proof.
  intros s s' a t [Rm Rh] H. unfold read in *.
  rewrite Rh. unfold shift_ref. rewrite nth_error_shifted, nth_error_map.
  destruct (nth_error (heap s) r); inversion H; subst; simpl.
  eexists; split; [reflexivity | split; assumption].
Qed.

Lemma sim_modify r (f f' : Section -> Section) :
  (forall c, f' (shift_section h0 c) = shift_section h0 (f c)) ->
  sim h0 same (modify r f) (modify (shift r) f').
Proof.
  intros Hf s s' a t [Rm Rh] H. unfold modify in *.
  rewrite Rh. unfold shift_ref. rewrite nth_error_shifted, nth_error_map.
  destruct (nth_error (heap s) r); inversion H; subst; simpl.
  eexists; split; [reflexivity | split; simpl; [assumption|]].
  now rewrite update_nth_shifted, (update_nth_map _ f f').
Qed.

Lemma sim_set_L r v : sim h0 same (set_L r v) (set_L (shift r) v).
Proof. now apply sim_modify. Qed.

Lemma sim_set_diam r v : sim h0 same (set_diam r v) (set_diam (shift r) v).
Proof. now apply sim_modify. Qed.

Lemma sim_set_nseg r v : sim h0 same (set_nseg r v) (set_nseg (shift r) v).
Proof. now apply sim_modify. Qed.

Lemma sim_set_labels r v : sim h0 same (set_labels r v) (set_labels (shift r) v).
Proof. now apply sim_modify. Qed.

Lemma sim_set_segments r v : sim h0 same (set_segments r v) (set_segments (shift r) v).
Proof. apply sim_set_nseg. Qed.

Lemma sim_set_dimensions r l d :
  sim h0 same (set_dimensions r l d) (set_dimensions (shift r) l d).
Proof.
  eapply sim_bind; [apply sim_set_L | intros _; apply sim_set_diam].
Qed.

Lemma sim_add_3d r pts : sim h0 same (add_3d r pts) (add_3d (shift r) pts).
Proof. now apply sim_modify. Qed.

Lemma sim_get_L r : sim h0 same (get_L r) (get_L (shift r)).
Proof.
  eapply sim_bind; [apply sim_read | intros sec; apply sim_lift].
Qed.

Lemma sim_connect r parent x :
  sim h0 same (connect r parent x) (connect (shift r) (shift parent) x).
Proof.
  eapply sim_bind; [apply sim_read | intros _; now apply sim_modify].
Qed.

(** *** The builder *)

Ltac sim_leaf :=
  first
    [ apply sim_ret | apply sim_lift | apply sim_index | apply sim_get_position
    | apply sim_new_Section | apply sim_set_dimensions | apply sim_set_segments
    | apply sim_set_L | apply sim_set_diam | apply sim_set_nseg
    | apply sim_set_labels | apply sim_add_3d | apply sim_get_L | apply sim_connect
    | apply sim_fiber_section_length | apply sim_fiber_segment_length
    | apply sim_ascending_axon_length | apply sim_parallel_fiber_length
    | apply sim_y_pf | apply sim_soma | apply sim_dend | apply sim_axon
    | apply sim_parallel_fiber | apply sim_axon_hillock
    | apply sim_axon_initial_segment | apply sim_ascending_axon
    | apply sim_with_fiber_section_length | apply sim_with_fiber_segment_length
    | apply sim_with_ascending_axon_length | apply sim_with_parallel_fiber_length
    | apply sim_with_y_pf | apply sim_with_axon_hillock
    | apply sim_with_axon_initial_segment | apply sim_with_ascending_axon
    | apply sim_with_soma; now rewrite ?map_app
    | apply sim_with_dend; now rewrite ?map_app
    | apply sim_with_axon; now rewrite ?map_app
    | apply sim_with_parallel_fiber; now rewrite ?map_app ].

Lemma sim_soma_0 : sim h0 shift GranuleBase.soma_0 GranuleBase.soma_0.
Proof.
  unfold GranuleBase.soma_0.
  eapply sim_bind; [apply sim_soma | intros l; apply sim_index].
Qed.

Ltac sim_step :=
  first
    [ sim_leaf
    | apply sim_soma_0
    | eapply sim_bind; [first [sim_leaf | apply sim_soma_0] | intros ?; cbv beta] ].

Lemma sim_build_soma : sim h0 same GranuleBase.build_soma GranuleBase.build_soma.
Proof. unfold GranuleBase.build_soma. repeat sim_step. Qed.

Lemma sim_build_dendrite i :
  sim h0 same (GranuleBase.build_dendrite i) (GranuleBase.build_dendrite i).
Proof.
  unfold GranuleBase.build_dendrite. repeat sim_step.
  eapply sim_bind.
  - apply sim_comprehension_same. intros j. repeat sim_step.
  - intros points. cbv beta. repeat sim_step.
Qed.

Lemma sim_build_dendrites :
  sim h0 same GranuleBase.build_dendrites GranuleBase.build_dendrites.
Proof.
  unfold GranuleBase.build_dendrites.
  eapply sim_bind; [apply (sim_with_dend []); reflexivity | intros _].
  apply sim_for_each_same, sim_build_dendrite.
Qed.

Lemma sim_build_hillock :
  sim h0 same GranuleBase.build_hillock GranuleBase.build_hillock.
Proof.
  unfold GranuleBase.build_hillock. repeat sim_step.
Qed.

Lemma sim_build_ascending_axon :
  sim h0 same GranuleBase.build_ascending_axon GranuleBase.build_ascending_axon.
Proof.
  unfold GranuleBase.build_ascending_axon. repeat sim_step.
  eapply sim_bind.
  - apply sim_comprehension_same. intros f. repeat sim_step.
  - intros points. cbv beta. repeat sim_step.
Qed.

Lemma sim_build_parallel_fiber_section section_length y center i r :
  sim h0 same
    (GranuleBase.build_parallel_fiber_section section_length y center (i, r))
    (GranuleBase.build_parallel_fiber_section section_length y center (i, shift r)).
Proof.
  unfold GranuleBase.build_parallel_fiber_section. repeat sim_step.
  destruct (i <? 2)%Z; repeat sim_step.
Qed.

Lemma sim_build_parallel_fiber :
  sim h0 same GranuleBase.build_parallel_fiber GranuleBase.build_parallel_fiber.
Proof.
  unfold GranuleBase.build_parallel_fiber. repeat sim_step.
  eapply sim_bind.
  { apply sim_comprehension. intros x. apply sim_new_Section. }
  intros sections. cbv beta. repeat sim_step.
  eapply sim_bind.
  { apply sim_for_each_enumerate. intros i r. apply sim_build_parallel_fiber_section. }
  intros _. repeat sim_step.
Qed.

Lemma sim_builder : sim h0 same GranuleBase.builder GranuleBase.builder.
Proof.
  unfold GranuleBase.builder. do 4 sim_step.
  eapply sim_bind; [apply sim_build_soma | intros _].
  eapply sim_bind; [apply sim_build_dendrites | intros _].
  eapply sim_bind; [apply sim_build_hillock | intros _].
  eapply sim_bind; [apply sim_build_ascending_axon | intros _].
  apply sim_build_parallel_fiber.
Qed.

End RelocationFacts.

(** Wherever the builder starts, it succeeds, and it leaves the state it
    leaves from [initial P], relocated behind the sections that existed. *)
Lemma builder_relocates (s : State) :
  GranuleBase.builder s
  = Some (tt, relocate (heap s) (built (position (self s)))).
Proof.
  assert (R : rel_state (heap s) (initial (position (self s))) s).
  { split; [constructor; exact I || reflexivity | simpl; now rewrite app_nil_r]. }
  destruct (sim_builder _ _ _ _ _ R (builder_initial _)) as (t' & E & [Rm Rh]).
  rewrite E. do 2 f_equal.
  destruct t' as [m' h']. cbn [self heap] in Rm, Rh. unfold relocate.
  f_equal; [|exact Rh].
  destruct Rm as [Hp H1 H2 H3 H4 H5 H6 H7 H8 H9 H10 H11 H12].
  destruct m'. cbn [position] in Hp.
  vm_compute in H1, H2, H3, H4, H5, H6, H7, H8, H9, H10, H11, H12.
  subst. vm_compute. reflexivity.
Qed.

(** *** Observations on a relocated state *)

Section Transport.

Variable h0 : list Section.
Variable t : State.

Local Abbreviation shift := (shift_ref h0).

Lemma shift_ref_inj r r' : shift r = shift r' -> r = r'.
Proof. unfold shift_ref. lia. Qed.

Lemma shift_ref_lt r r' : (r < r')%nat <-> (shift r < shift r')%nat.
Proof. unfold shift_ref. lia. Qed.

Lemma section_at_relocate r :
  section_at (relocate h0 t) (shift r) = option_map (shift_section h0) (section_at t r).
Proof.
  unfold section_at, relocate, shift_ref. cbn [heap].
  now rewrite nth_error_shifted, nth_error_map.
Qed.

Lemma parent_of_relocate r :
  parent_of (relocate h0 t) (shift r) = option_map shift (parent_of t r).
Proof.
  unfold parent_of. rewrite section_at_relocate.
  destruct (section_at t r) as [sec|]; [|reflexivity].
  cbn [option_map shift_section sec_parent].
  now destruct (sec_parent sec).
Qed.

Lemma ancestor_relocate k r :
  ancestor (relocate h0 t) k (shift r) = option_map shift (ancestor t k r).
Proof.
  revert r. induction k as [|k IH]; intros r; cbn [ancestor]; [reflexivity|].
  rewrite parent_of_relocate.
  destruct (parent_of t r) as [p|]; cbn [option_map]; [apply IH | reflexivity].
Qed.

Lemma root_of_relocate fuel r :
  root_of (relocate h0 t) fuel (shift r) = option_map shift (root_of t fuel r).
Proof.
  revert r. induction fuel as [|fuel IH]; intros r; cbn [root_of]; [reflexivity|].
  rewrite section_at_relocate.
  destruct (section_at t r) as [sec|]; [|reflexivity].
  cbn [option_map shift_section sec_parent].
  destruct (sec_parent sec) as [c|]; cbn [option_map]; [apply IH | reflexivity].
Qed.

Lemma cell_sections_relocate :
  cell_sections (relocate h0 t) = map shift (cell_sections t).
Proof.
  unfold cell_sections, relocate. cbn [self shift_model soma dend axon].
  destruct (soma (self t)), (dend (self t)), (axon (self t)); try reflexivity.
  cbn [option_map]. now rewrite !map_app.
Qed.

Lemma index_of_shift r l : index_of (shift r) (map shift l) = index_of r l.
Proof.
  induction l as [|x l IH]; cbn [index_of map]; [reflexivity|].
  rewrite IH. destruct (Nat.eqb_spec x r) as [->|N].
  - now rewrite Nat.eqb_refl.
  - destruct (Nat.eqb_spec (shift x) (shift r)) as [E|_]; [|reflexivity].
    now apply shift_ref_inj in E.
Qed.

Lemma local_section_relocate cell r :
  local_section (relocate h0 t) (map shift cell) (shift r) = local_section t cell r.
Proof.
  unfold local_section. rewrite section_at_relocate.
  destruct (section_at t r) as [sec|]; [|reflexivity].
  cbn [option_map]. destruct sec as [? ? ? ? ? ? [c|]]; [|reflexivity].
  cbn [shift_section sec_parent option_map shift_connection conn_parent conn_end].
  rewrite index_of_shift. now destruct (index_of (conn_parent c) cell).
Qed.

Lemma local_sections_relocate cell l :
  local_sections (relocate h0 t) (map shift cell) (map shift l) = local_sections t cell l.
Proof.
  induction l as [|r l IH]; cbn [local_sections map]; [reflexivity|].
  now rewrite local_section_relocate, IH.
Qed.

Lemma morphology_relocate : morphology (relocate h0 t) = morphology t.
Proof.
  unfold morphology, relocate. cbn [self shift_model soma dend axon y_pf].
  destruct (soma (self t)) as [so|], (dend (self t)) as [de|],
    (axon (self t)) as [ax|], (y_pf (self t)) as [y|]; try reflexivity.
  cbn [option_map]. rewrite <- !map_app.
  fold (relocate h0 t). now rewrite !local_sections_relocate.
Qed.

End Transport.

(** ** The compartments the builder creates *)

(** Names the position [P] and the store [h0] the builder starts from, and
    records its run as [E]. *)
Ltac run_builder s P h0 E :=
  pose proof (builder_relocates s) as E; revert E;
  generalize (position (self s)) as P; generalize (heap s) as h0; intros h0 P E.

(** Evaluates the section [k] of [built P] and records it as [H]. *)
Ltac built_section P k H :=
  let x := eval vm_compute in (section_at (built P) k) in
  assert (H : section_at (built P) k = x) by (vm_compute; reflexivity).

(** Provides the relocated copy of the section recorded in [H]. *)
Ltac relocated_section h0 H :=
  match type of H with
  | section_at _ _ = Some ?sec => exists (shift_section h0 sec)
  end.

(** C6: wherever the builder runs, the soma is a single compartment of
    length 5.62232 and diameter 5.8 with one segment and exactly two 3-D
    points, the first being the placement position [P] itself and the second
    [P + (0, 5.62232, 0)]. *)
Theorem soma_compartment (s : State) :
  exists s' r sec,
    GranuleBase.builder s = Some (tt, s') /\
    position (self s') = position (self s) /\
    soma (self s') = Some [r] /\
    section_at s' r = Some sec /\
    sec_L sec = Some 5.62232%float /\
    sec_diam sec = Some 5.8%float /\
    sec_nseg sec = Some 1 /\
    sec_pt3d sec
    = [position (self s); vadd (position (self s)) (vec3 0 5.62232 0)].
Proof.
  run_builder s P h0 E.
  built_section P 0%nat H.
  exists (relocate h0 (built P)), (shift_ref h0 0). relocated_section h0 H.
  split; [exact E|].
  split; [vm_compute; reflexivity|].
  split; [vm_compute; reflexivity|].
  split; [rewrite section_at_relocate, H; reflexivity|].
  repeat split.
Qed.

(** C8: the axon hillock has length 1 and diameter 1.5 and is connected to
    the soma at end 0; the axon initial segment has length 10 and diameter
    0.7 and is connected to the hillock at end 1; both have one segment and
    carry their own label. *)
Theorem hillock_and_initial_segment (s : State) :
  exists s' so hillock ais hsec asec,
    GranuleBase.builder s = Some (tt, s') /\
    soma (self s') = Some [so] /\
    axon_hillock (self s') = Some hillock /\
    axon_initial_segment (self s') = Some ais /\
    section_at s' hillock = Some hsec /\
    section_at s' ais = Some asec /\
    (sec_L hsec = Some 1%float /\
     sec_diam hsec = Some 1.5%float /\
     sec_nseg hsec = Some 1 /\
     sec_labels hsec = ["axon_hillock"%string] /\
     sec_parent hsec = Some (mkConnection so (Some 0))) /\
    (sec_L asec = Some 10%float /\
     sec_diam asec = Some 0.7%float /\
     sec_nseg asec = Some 1 /\
     sec_labels asec = ["axon_initial_segment"%string] /\
     sec_parent asec = Some (mkConnection hillock (Some 1))).
Proof.
  run_builder s P h0 E.
  built_section P 5%nat Hh. built_section P 6%nat Ha.
  exists (relocate h0 (built P)), (shift_ref h0 0), (shift_ref h0 5), (shift_ref h0 6).
  relocated_section h0 Hh. relocated_section h0 Ha.
  split; [exact E|].
  do 3 (split; [vm_compute; reflexivity|]).
  split; [rewrite section_at_relocate, Hh; reflexivity|].
  split; [rewrite section_at_relocate, Ha; reflexivity|].
  repeat split.
Qed.

(** C3: the ascending axon has [floor(126/7) = 18] segments, length 126 and
    diameter 0.3; it has exactly 11 3-D points, at the fractions 0.0 to 1.0
    of its length above [P + (0, 16.62232, 0)]; and the builder records
    [y_pf = 16.62232 + 7 * 18 = 142.62232]. *)
Theorem ascending_axon_compartment (s : State) :
  let P := position (self s) in
  exists s' ais aa sec,
    GranuleBase.builder s = Some (tt, s') /\
    axon_initial_segment (self s') = Some ais /\
    ascending_axon (self s') = Some aa /\
    section_at s' aa = Some sec /\
    sec_nseg sec = Some (126 / 7) /\
    126 / 7 = 18 /\
    sec_L sec = Some 126%float /\
    sec_diam sec = Some 0.3%float /\
    sec_labels sec = ["ascending_axon"%string] /\
    sec_parent sec = Some (mkConnection ais None) /\
    length (sec_pt3d sec) = 11%nat /\
    sec_pt3d sec
    = map (fun f => vadd P (vec3 0 (16.62232 + f * 126) 0)) GranuleBase.fraction /\
    hd_error GranuleBase.fraction = Some 0.0%float /\
    last GranuleBase.fraction 0.5%float = 1.0%float /\
    hd_error (sec_pt3d sec) = Some (vadd P (vec3 0 16.62232 0)) /\
    last (sec_pt3d sec) P = vadd P (vec3 0 142.62232 0) /\
    y_pf (self s') = Some 142.62232%float /\
    142.62232%float = (16.62232 + Py.float_of_int (7 * 18))%float.
Proof.
  cbv zeta. run_builder s P h0 E.
  built_section P 7%nat H.
  exists (relocate h0 (built P)), (shift_ref h0 6), (shift_ref h0 7).
  relocated_section h0 H.
  split; [exact E|].
  do 2 (split; [vm_compute; reflexivity|]).
  split; [rewrite section_at_relocate, H; reflexivity|].
  repeat split; vm_compute; reflexivity.
Qed.

(** *** The two loops, in closed form *)

Lemma nth_error_map_seq {A B} (f : A -> B) (g : nat -> B) (l : list A) :
  map f l = map g (seq 0 (length l)) ->
  forall i r, nth_error l i = Some r -> f r = g i.
Proof.
  intros H i r Hi.
  assert (Hlt : (i < length l)%nat) by (apply nth_error_Some; congruence).
  assert (Hf : nth_error (map f l) i = Some (f r)) by now rewrite nth_error_map, Hi.
  rewrite H, nth_error_map, nth_error_seq in Hf.
  destruct (Nat.ltb_spec i (length l)); [|lia].
  cbn in Hf. congruence.
Qed.

Lemma nth_error_map_inv {A B} (f : A -> B) (l : list A) (i : nat) (y : B) :
  nth_error (map f l) i = Some y -> exists x, nth_error l i = Some x /\ y = f x.
Proof.
  rewrite nth_error_map. destruct (nth_error l i) as [x|]; [|discriminate].
  intros [= <-]. eauto.
Qed.

Lemma built_dendrites (P : Vec3) :
  map (section_at (built P)) (seq 1 4)
  = map (fun i => Some (dendrite_section P 0 i)) (seq 0 (length (seq 1 4))).
Proof. vm_compute. reflexivity. Qed.

Lemma built_parallel_fiber (P : Vec3) :
  map (section_at (built P)) (seq 8 100)
  = map (fun id => Some (parallel_fiber_section P 7 (seq 8 100) id))
      (seq 0 (length (seq 8 100))).
Proof. vm_compute. reflexivity. Qed.

Lemma shift_dendrite_section h0 P so i :
  shift_section h0 (dendrite_section P so i) = dendrite_section P (shift_ref h0 so) i.
Proof. reflexivity. Qed.

Lemma shift_parallel_fiber_section h0 P aa pf id :
  shift_section h0 (parallel_fiber_section P aa pf id)
  = parallel_fiber_section P (shift_ref h0 aa) (map (shift_ref h0) pf) id.
Proof.
  unfold parallel_fiber_section, shift_section.
  cbn [sec_name sec_L sec_diam sec_nseg sec_pt3d sec_labels sec_parent option_map
       shift_connection conn_parent conn_end].
  destruct (id <? 2)%nat; [reflexivity|].
  now rewrite map_nth.
Qed.

(** Wherever the builder runs, the four dendrites are the sections
    [dendrite_section]. *)
Lemma dendrites_closed_form (s : State) :
  exists s' so ds,
    GranuleBase.builder s = Some (tt, s') /\
    soma (self s') = Some [so] /\
    dend (self s') = Some ds /\
    length ds = 4%nat /\
    NoDup ds /\
    forall i d, nth_error ds i = Some d ->
      section_at s' d = Some (dendrite_section (position (self s)) so i).
Proof.
  run_builder s P h0 E.
  exists (relocate h0 (built P)), (shift_ref h0 0), (map (shift_ref h0) (seq 1 4)).
  split; [exact E|].
  do 2 (split; [vm_compute; reflexivity|]).
  split; [reflexivity|].
  split.
  { apply Injective_map_NoDup; [|apply seq_NoDup].
    intros x y. apply shift_ref_inj. }
  intros i d Hd. apply nth_error_map_inv in Hd as (d0 & Hd & ->).
  rewrite section_at_relocate, <- shift_dendrite_section.
  now rewrite (nth_error_map_seq _ _ _ (built_dendrites P) i d0 Hd).
Qed.

(** Wherever the builder runs, the hundred parallel-fiber compartments are the
    sections [parallel_fiber_section]. *)
Lemma parallel_fiber_closed_form (s : State) :
  exists s' aa pf,
    GranuleBase.builder s = Some (tt, s') /\
    ascending_axon (self s') = Some aa /\
    parallel_fiber (self s') = Some pf /\
    length pf = 100%nat /\
    NoDup (aa :: pf) /\
    forall id r, nth_error pf id = Some r ->
      section_at s' r = Some (parallel_fiber_section (position (self s)) aa pf id).
Proof.
  run_builder s P h0 E.
  exists (relocate h0 (built P)), (shift_ref h0 7), (map (shift_ref h0) (seq 8 100)).
  split; [exact E|].
  do 2 (split; [vm_compute; reflexivity|]).
  split; [reflexivity|].
  split.
  { change (NoDup (map (shift_ref h0) (seq 7 101))).
    apply Injective_map_NoDup; [|apply seq_NoDup].
    intros x y. apply shift_ref_inj. }
  intros id r Hr. apply nth_error_map_inv in Hr as (r0 & Hr & ->).
  rewrite section_at_relocate, <- shift_parallel_fiber_section.
  now rewrite (nth_error_map_seq _ _ _ (built_parallel_fiber P) id r0 Hr).
Qed.

(** C7: the builder produces exactly 4 dendrites of length 15 and diameter
    0.75, each connected to the soma at end 0; the dendrite [i] has exactly 10
    3-D points, which start at its origin, the position moved along X by
    [(i - 1.5) * 2], and lie below it by distances that grow with the index of
    the point. *)
Theorem dendrite_compartments (s : State) :
  let P := position (self s) in
  exists s' so ds,
    GranuleBase.builder s = Some (tt, s') /\
    soma (self s') = Some [so] /\
    dend (self s') = Some ds /\
    length ds = 4%nat /\
    NoDup ds /\
    (forall i d, nth_error ds i = Some d ->
       exists sec,
         section_at s' d = Some sec /\
         sec_L sec = Some 15%float /\
         sec_diam sec = Some 0.75%float /\
         sec_parent sec = Some (mkConnection so (Some 0)) /\
         length (sec_pt3d sec) = 10%nat /\
         forall j pt, nth_error (sec_pt3d sec) j = Some pt ->
           pt = vec3 (vx P + (Py.float_of_int (Z.of_nat i) - 1.5) * 2)
                     (vy P - descent 15 j)
                     (vz P)) /\
    descent 15 0 = 0%float /\
    (forall j, (j < 9)%nat ->
       PrimFloat.ltb (descent 15 j) (descent 15 (S j)) = true).
Proof.
  cbv zeta.
  destruct (dendrites_closed_form s) as (s' & so & ds & E & Hso & Hds & Hlen & Hnd & H).
  exists s', so, ds. repeat (split; [assumption|]).
  split; [|split; [reflexivity|]].
  - intros i d Hd. eexists. split; [exact (H i d Hd)|].
    repeat (split; [reflexivity|]).
    intros j pt Hj. cbn [dendrite_section sec_pt3d] in Hj.
    apply nth_error_map_inv in Hj as (j0 & Hj & ->).
    assert (Hlt : (j < length (seq 0 10))%nat) by (apply nth_error_Some; congruence).
    rewrite nth_error_seq in Hj. rewrite length_seq in Hlt.
    destruct (Nat.ltb_spec j 10); [|lia]. now injection Hj as <-.
  - intros j Hj.
    do 9 (destruct j as [|j]; [vm_compute; reflexivity|]). lia.
Qed.

(** At a concrete position the Y coordinates themselves descend. *)
Example dendrite_descends :
  let ys := map (fun j => vy (sub_y (dendrite_origin example_position 0) (descent 15 j)))
                (seq 0 10) in
  forallb (fun yy => PrimFloat.ltb (snd yy) (fst yy)) (combine ys (tl ys)) = true.
Proof. vm_compute. reflexivity. Qed.

(** The parent of a parallel-fiber compartment, read off its closed form. *)
Lemma parallel_fiber_parent s P aa pf :
  (forall id r, nth_error pf id = Some r ->
     section_at s r = Some (parallel_fiber_section P aa pf id)) ->
  forall id r, nth_error pf id = Some r ->
    parent_of s r = Some (if (id <? 2)%nat then aa else nth (id - 2) pf aa).
Proof.
  intros H id r Hr. unfold parent_of. now rewrite (H id r Hr).
Qed.

(** Climbing [k] connections from the compartment [id] leads to the
    compartment [id - 2 * k]. *)
Lemma parallel_fiber_ancestor s P aa pf :
  (forall id r, nth_error pf id = Some r ->
     section_at s r = Some (parallel_fiber_section P aa pf id)) ->
  forall k id r, nth_error pf id = Some r -> (2 * k <= id)%nat ->
    ancestor s k r = nth_error pf (id - 2 * k).
Proof.
  intros H k. induction k as [|k IH]; intros id r Hr Hk; cbn [ancestor].
  - now rewrite Nat.sub_0_r.
  - rewrite (parallel_fiber_parent s P aa pf H id r Hr).
    destruct (Nat.ltb_spec id 2); [lia|].
    assert (Hlt : (id - 2 < length pf)%nat).
    { assert (id < length pf)%nat by (apply nth_error_Some; congruence). lia. }
    rewrite (IH (id - 2)%nat); [f_equal; lia | | lia].
    now apply nth_error_nth'.
Qed.

(** Climbing [id / 2 + 1] connections from the compartment [id] leads to the
    ascending axon. *)
Lemma parallel_fiber_root s P aa pf :
  (forall id r, nth_error pf id = Some r ->
     section_at s r = Some (parallel_fiber_section P aa pf id)) ->
  forall k id r, nth_error pf id = Some r -> (id / 2)%nat = k ->
    ancestor s (S k) r = Some aa.
Proof.
  intros H k. induction k as [|k IH]; intros id r Hr Hk.
  - cbn [ancestor]. rewrite (parallel_fiber_parent s P aa pf H id r Hr).
    destruct (Nat.ltb_spec id 2); [reflexivity|].
    assert (1 <= id / 2)%nat by (apply (Nat.Div0.div_le_mono 2 id 2); lia). lia.
  - change (ancestor s (S (S k)) r) with
      (match parent_of s r with Some p => ancestor s (S k) p | None => None end).
    rewrite (parallel_fiber_parent s P aa pf H id r Hr).
    destruct (Nat.ltb_spec id 2).
    + rewrite Nat.div_small in Hk by assumption. discriminate.
    + assert (Hlt : (id - 2 < length pf)%nat).
      { assert (id < length pf)%nat by (apply nth_error_Some; congruence). lia. }
      apply (IH (id - 2)%nat); [now apply nth_error_nth'|].
      replace id with ((id - 2) + 1 * 2)%nat in Hk by lia.
      rewrite Nat.div_add in Hk by lia. lia.
Qed.

(** C2: the parallel fiber consists of exactly [floor(2000/20) = 100]
    compartments of length 20 and diameter 0.3; the compartments 0 and 1 are
    connected to the ascending axon and every other compartment [id] to the
    compartment [id - 2], so that climbing from [id] stays among the
    compartments of the parity of [id] and ends at the ascending axon: two
    independent chains rooted there. *)
Theorem parallel_fiber_chain (s : State) :
  exists s' aa pf,
    GranuleBase.builder s = Some (tt, s') /\
    ascending_axon (self s') = Some aa /\
    parallel_fiber (self s') = Some pf /\
    length pf = 100%nat /\
    Z.of_nat (length pf) = 2000 / 20 /\
    NoDup (aa :: pf) /\
    forall id r, nth_error pf id = Some r ->
      exists sec,
        section_at s' r = Some sec /\
        sec_L sec = Some 20%float /\
        sec_diam sec = Some 0.3%float /\
        ((id < 2)%nat -> sec_parent sec = Some (mkConnection aa None)) /\
        ((2 <= id)%nat ->
           exists p, nth_error pf (id - 2) = Some p /\
                     sec_parent sec = Some (mkConnection p None)) /\
        (forall k, (2 * k <= id)%nat -> ancestor s' k r = nth_error pf (id - 2 * k)) /\
        ancestor s' (S (id / 2)) r = Some aa.
Proof.
  destruct (parallel_fiber_closed_form s) as (s' & aa & pf & E & Haa & Hpf & Hlen & Hnd & H).
  exists s', aa, pf. repeat (split; [assumption|]).
  split; [now rewrite Hlen|]. split; [assumption|].
  intros id r Hr. eexists. split; [exact (H id r Hr)|].
  do 2 (split; [reflexivity|]).
  cbn [parallel_fiber_section sec_parent].
  split; [|split; [|split]].
  - intros Hid. now destruct (Nat.ltb_spec id 2); [|lia].
  - intros Hid. destruct (Nat.ltb_spec id 2); [lia|].
    exists (nth (id - 2) pf aa). split; [|reflexivity].
    apply nth_error_nth'.
    assert (id < length pf)%nat by (apply nth_error_Some; congruence). lia.
  - intros k Hk. exact (parallel_fiber_ancestor s' _ aa pf H k id r Hr Hk).
  - exact (parallel_fiber_root s' _ aa pf H (id / 2)%nat id r Hr eq_refl).
Qed.

(** C10: after the builder, the axon list holds exactly 103 compartments:
    the axon hillock, the axon initial segment, the ascending axon, and then
    the 100 parallel-fiber compartments in the order of their index, which the
    name of each compartment records. *)
Theorem axon_list (s : State) :
  exists s' hillock ais aa pf,
    GranuleBase.builder s = Some (tt, s') /\
    axon_hillock (self s') = Some hillock /\
    axon_initial_segment (self s') = Some ais /\
    ascending_axon (self s') = Some aa /\
    parallel_fiber (self s') = Some pf /\
    axon (self s') = Some (hillock :: ais :: aa :: pf) /\
    length pf = 100%nat /\
    length (hillock :: ais :: aa :: pf) = 103%nat /\
    NoDup (hillock :: ais :: aa :: pf) /\
    forall id r, nth_error pf id = Some r ->
      exists sec,
        section_at s' r = Some sec /\
        sec_labels sec = ["parallel_fiber"%string] /\
        sec_name sec = Some ("parellel_fiber_" ++ Py.str (Z.of_nat id))%string.
Proof.
  run_builder s P h0 E.
  exists (relocate h0 (built P)), (shift_ref h0 5), (shift_ref h0 6), (shift_ref h0 7),
    (map (shift_ref h0) (seq 8 100)).
  split; [exact E|].
  do 5 (split; [vm_compute; reflexivity|]).
  do 2 (split; [reflexivity|]).
  split.
  { change (NoDup (map (shift_ref h0) (seq 5 103))).
    apply Injective_map_NoDup; [|apply seq_NoDup].
    intros x y. apply shift_ref_inj. }
  intros id r Hr. apply nth_error_map_inv in Hr as (r0 & Hr & ->).
  eexists. split.
  - rewrite section_at_relocate.
    now rewrite (nth_error_map_seq _ _ _ (built_parallel_fiber P) id r0 Hr).
  - split; reflexivity.
Qed.

(** ** The tree *)

Lemma well_parented_spec s cell root r :
  well_parented s cell root r = true -> r <> root ->
  exists p,
    parent_of s r = Some p /\ In p cell /\ (p < r)%nat /\
    root_of s (length cell) r = Some root.
Proof.
  unfold well_parented. intros H Hr.
  apply orb_true_iff in H as [H|H]; [now apply Nat.eqb_eq in H|].
  destruct (parent_of s r) as [p|]; [|discriminate].
  apply andb_true_iff in H as [H Hroot]. apply andb_true_iff in H as [Hin Hlt].
  exists p. split; [reflexivity|]. split; [|split].
  - apply existsb_exists in Hin as (x & Hx & Hpx).
    apply Nat.eqb_eq in Hpx. now subst.
  - now apply Nat.ltb_lt.
  - destruct (root_of s (length cell) r) as [x|]; [|discriminate].
    apply Nat.eqb_eq in Hroot. now subst.
Qed.

Lemma built_well_parented (P : Vec3) :
  forallb (well_parented (built P) (cell_sections (built P)) 0)
    (cell_sections (built P)) = true.
Proof. vm_compute. reflexivity. Qed.

Lemma built_cell_sections (P : Vec3) : cell_sections (built P) = seq 0 108.
Proof. vm_compute. reflexivity. Qed.

(** C4: wherever the builder runs, the soma has no parent, and each of the
    107 other compartments of the cell (4 dendrites, hillock, initial segment,
    ascending axon, 100 parallel-fiber compartments) is connected to exactly
    one parent, a compartment of the cell that was created before it; climbing
    from any compartment ends at the soma.  The compartments thus form a tree
    with the single root [soma[0]] and no cycle. *)
Theorem compartment_tree (s : State) :
  exists s' root de ax,
    GranuleBase.builder s = Some (tt, s') /\
    soma (self s') = Some [root] /\
    dend (self s') = Some de /\
    axon (self s') = Some ax /\
    length de = 4%nat /\
    length ax = 103%nat /\
    cell_sections s' = root :: de ++ ax /\
    NoDup (cell_sections s') /\
    (exists sec, section_at s' root = Some sec /\ sec_parent sec = None) /\
    forall r, In r (cell_sections s') -> r <> root ->
      exists sec c,
        section_at s' r = Some sec /\
        sec_parent sec = Some c /\
        In (conn_parent c) (cell_sections s') /\
        (conn_parent c < r)%nat /\
        root_of s' (length (cell_sections s')) r = Some root.
Proof.
  run_builder s P h0 E.
  built_section P 0%nat H0.
  exists (relocate h0 (built P)), (shift_ref h0 0), (map (shift_ref h0) (seq 1 4)),
    (map (shift_ref h0) (seq 5 103)).
  split; [exact E|].
  do 3 (split; [vm_compute; reflexivity|]).
  do 2 (split; [reflexivity|]).
  rewrite cell_sections_relocate, built_cell_sections.
  split; [reflexivity|].
  split.
  { apply Injective_map_NoDup; [|apply seq_NoDup]. intros x y. apply shift_ref_inj. }
  split.
  { relocated_section h0 H0. rewrite section_at_relocate, H0. split; reflexivity. }
  intros r Hr Hroot.
  apply in_map_iff in Hr as (r0 & <- & Hr0).
  assert (Hr0' : r0 <> 0%nat) by (intros ->; now apply Hroot).
  pose proof (built_well_parented P) as W. rewrite forallb_forall in W.
  rewrite built_cell_sections in W.
  destruct (well_parented_spec _ _ _ _ (W r0 Hr0) Hr0') as (p & Hp & Hin & Hlt & Hclimb).
  unfold parent_of in Hp.
  destruct (section_at (built P) r0) as [sec|] eqn:Hsec; [|discriminate].
  destruct (sec_parent sec) as [c|] eqn:Hc; [|discriminate].
  injection Hp as <-.
  exists (shift_section h0 sec), (shift_connection h0 c).
  split; [rewrite section_at_relocate, Hsec; reflexivity|].
  split; [cbn [shift_section sec_parent]; now rewrite Hc|].
  cbn [shift_connection conn_parent].
  split; [now apply in_map|].
  split; [now apply shift_ref_lt|].
  rewrite length_map in *. now rewrite root_of_relocate, Hclimb.
Qed.

(** ** Determinism *)

Lemma built_morphology (P : Vec3) : exists m, morphology (built P) = Some m.
Proof. vm_compute. eexists. reflexivity. Qed.

(** C5: two invocations of the builder on instances at the same position,
    whatever attributes the instances already have and whatever sections the
    simulator already holds, both succeed and produce the same morphology:
    the same compartments in the same order, with the same names, lengths,
    diameters, segment counts, labels and 3-D points, connected in the same
    way. *)
Theorem builder_deterministic (s1 s2 : State) :
  position (self s1) = position (self s2) ->
  exists s1' s2' m,
    GranuleBase.builder s1 = Some (tt, s1') /\
    GranuleBase.builder s2 = Some (tt, s2') /\
    morphology s1' = Some m /\
    morphology s2' = Some m.
Proof.
  intros HP.
  destruct (built_morphology (position (self s1))) as (m & Hm).
  exists (relocate (heap s1) (built (position (self s1)))),
    (relocate (heap s2) (built (position (self s2)))), m.
  split; [apply builder_relocates|].
  split; [apply builder_relocates|].
  rewrite !morphology_relocate, <- HP. now split.
Qed.

Lemma builder_deterministic_witness :
  position (self example_new) = position (self example_used) /\
  exists s1' s2' m,
    GranuleBase.builder example_new = Some (tt, s1') /\
    GranuleBase.builder example_used = Some (tt, s2') /\
    morphology s1' = Some m /\
    morphology s2' = Some m.
Proof.
  split; [reflexivity|].
  exact (builder_deterministic example_new example_used eq_refl).
Defined.

(** ** The extent of the parallel fiber *)

Lemma pf_sign_even id : Nat.even id = true -> pf_sign id = 1.
Proof.
  intros H. apply Nat.even_spec in H as [k ->]. unfold pf_sign.
  replace (Z.of_nat (2 * k)) with (Z.of_nat k * 2) by lia.
  now rewrite Z_mod_mult.
Qed.

Lemma pf_sign_odd id : Nat.odd id = true -> pf_sign id = -1.
Proof.
  intros H. apply Nat.odd_spec in H as [k ->]. unfold pf_sign.
  replace (Z.of_nat (2 * k + 1)) with (1 + Z.of_nat k * 2) by lia.
  now rewrite Z_mod_plus_full.
Qed.

(** Wherever the builder runs, the compartment [id] of the parallel fiber has
    two 3-D points, obtained by adding to the position [P] the vectors
    [(0, y_pf, center + sign * z)] and [(0, y_pf, center + sign * (z + 20))]
    with [center] the Z component of [P], [sign] 1 for even and -1 for odd
    [id], and [z = floor(id / 2) * 20]. *)
Lemma parallel_fiber_extent (s : State) :
  let P := position (self s) in
  exists s' pf,
    GranuleBase.builder s = Some (tt, s') /\
    parallel_fiber (self s') = Some pf /\
    y_pf (self s') = Some 142.62232%float /\
    forall id r, nth_error pf id = Some r ->
      exists sec,
        section_at s' r = Some sec /\
        sec_pt3d sec
        = [vadd P (vec3 0 142.62232
                     (vz P + Py.float_of_int (pf_sign id * pf_z id)));
           vadd P (vec3 0 142.62232
                     (vz P + Py.float_of_int (pf_sign id * (pf_z id + 20))))] /\
        pf_sign id = (if Nat.even id then 1 else -1) /\
        pf_z id = Z.of_nat id / 2 * 20.
Proof.
  cbv zeta.
  destruct (parallel_fiber_closed_form s) as (s' & aa & pf & E & Haa & Hpf & Hlen & Hnd & H).
  exists s', pf. do 2 (split; [assumption|]).
  split.
  { rewrite (builder_relocates s) in E. injection E as <-. vm_compute. reflexivity. }
  intros id r Hr. eexists. split; [exact (H id r Hr)|].
  split; [reflexivity|]. split; [|reflexivity].
  destruct (Nat.even id) eqn:Hev; [now apply pf_sign_even|].
  apply pf_sign_odd. unfold Nat.odd. now rewrite Hev.
Qed.

(** C1, on the instance placed at [(0, 0, 1)]: the ascending axon ends at
    [Z = 1], the center Z coordinate, but the first parallel-fiber compartment
    extends from [Z = 2] to [Z = 22], not from [Z = 1] to [Z = 21] as
    specified: the center Z coordinate is counted twice. *)
Theorem parallel_fiber_counts_center_twice :
  let P := vec3 0 0 1 in
  exists s' aa asec pf0 pf sec,
    GranuleBase.builder (initial P) = Some (tt, s') /\
    ascending_axon (self s') = Some aa /\
    section_at s' aa = Some asec /\
    last (sec_pt3d asec) P = vec3 0 142.62232 1 /\
    parallel_fiber (self s') = Some (pf0 :: pf) /\
    section_at s' pf0 = Some sec /\
    sec_pt3d sec = [vec3 0 142.62232 2; vec3 0 142.62232 22] /\
    spec_parallel_fiber_points P 0 = [vec3 0 142.62232 1; vec3 0 142.62232 21] /\
    sec_pt3d sec <> spec_parallel_fiber_points P 0.
Proof.
  cbv zeta.
  built_section (vec3 0 0 1) 7%nat Ha. built_section (vec3 0 0 1) 8%nat Hp.
  exists (built (vec3 0 0 1)), 7%nat.
  match type of Ha with _ = Some ?sec => exists sec end.
  exists 8%nat, (seq 9 99).
  match type of Hp with _ = Some ?sec => exists sec end.
  split; [apply builder_initial|].
  split; [vm_compute; reflexivity|].
  split; [exact Ha|].
  split; [vm_compute; reflexivity|].
  split; [vm_compute; reflexivity|].
  split; [exact Hp|].
  split; [vm_compute; reflexivity|].
  split; [vm_compute; reflexivity|].
  intros H.
  apply (f_equal (fun pts => match pts with
                             | p :: _ => PrimFloat.ltb 1.5 (vz p)
                             | [] => false
                             end)) in H.
  vm_compute in H. discriminate.
Qed.

(** ** Parameter tables *)

(** C9: the four model classes have identical synapse tables, and section
    tables of identical structure: the same roles, synapse lists, mechanism
    lists, attribute keys and values, except for the values of conductance
    attributes and for the variant tag of [cdp5], which is ["CR"] in
    [GranuleCell], [GranuleCellMildAdapting] and [GranuleCellAdapting] and
    ["CAM"] in [GranuleCellAccelerate]. *)
Theorem variants_share_structure :
  GranuleCellMildAdapting.synapse_types = GranuleCell.synapse_types /\
  GranuleCellAdapting.synapse_types = GranuleCell.synapse_types /\
  GranuleCellAccelerate.synapse_types = GranuleCell.synapse_types /\
  structure GranuleCellMildAdapting.section_types = structure GranuleCell.section_types /\
  structure GranuleCellAdapting.section_types = structure GranuleCell.section_types /\
  structure GranuleCellAccelerate.section_types = structure GranuleCell.section_types /\
  map fst GranuleCell.section_types
  = ["soma"; "dendrites"; "axon"; "ascending_axon"; "parallel_fiber";
     "axon_initial_segment"; "axon_hillock"]%string /\
  cdp5_tags GranuleCell.section_types = repeat "CR"%string 6 /\
  cdp5_tags GranuleCellMildAdapting.section_types = repeat "CR"%string 6 /\
  cdp5_tags GranuleCellAdapting.section_types = repeat "CR"%string 6 /\
  cdp5_tags GranuleCellAccelerate.section_types = repeat "CAM"%string 6 /\
  conductances GranuleCellAccelerate.section_types
  = conductances GranuleCell.section_types.
Proof. repeat split; vm_compute; reflexivity. Qed.

(** * Further properties of the builder *)

(** ** The store *)

Lemma built_heap_length (P : Vec3) : length (heap (built P)) = 108%nat.
Proof. vm_compute. reflexivity. Qed.

(** X1: wherever the builder runs, it leaves every section that existed
    before as it was, appends exactly 108 sections to the store, and the
    sections of the cell are exactly these 108 new ones. *)
Theorem builder_extends_store (s : State) :
  exists s',
    GranuleBase.builder s = Some (tt, s') /\
    length (heap s') = (length (heap s) + 108)%nat /\
    (forall r sec, section_at s r = Some sec -> section_at s' r = Some sec) /\
    (forall r, In r (cell_sections s')
               <-> (length (heap s) <= r < length (heap s'))%nat).
Proof.
  pose proof (builder_relocates s) as E.
  exists (relocate (heap s) (built (position (self s)))).
  split; [exact E|].
  assert (Hlen : length (heap (relocate (heap s) (built (position (self s)))))
                 = (length (heap s) + 108)%nat).
  { unfold relocate. cbn [heap].
    now rewrite length_app, length_map, built_heap_length. }
  split; [exact Hlen|]. split.
  - intros r sec Hr. unfold section_at, relocate in *. cbn [heap].
    rewrite nth_error_app1; [exact Hr|].
    apply nth_error_Some. congruence.
  - intros r. rewrite Hlen, cell_sections_relocate, built_cell_sections, in_map_iff.
    unfold shift_ref. split.
    + intros (k & <- & Hk). apply in_seq in Hk. lia.
    + intros Hr. exists (r - length (heap s))%nat. split; [lia|].
      apply in_seq. lia.
Qed.

(** ** Geometry *)

(** X2: wherever the builder runs, the trunk of the cell is contiguous: the
    hillock starts where the soma ends, the initial segment where the hillock
    ends, the ascending axon where the initial segment ends, and the
    parallel-fiber compartments 0 and 1 both start at one point, which has
    the X and Y coordinates of the end of the ascending axon. *)
Theorem trunk_is_contiguous (s : State) :
  let P := position (self s) in
  exists s' so hillock ais aa pf0 pf1 pf ssec hsec asec aasec sec0 sec1,
    GranuleBase.builder s = Some (tt, s') /\
    soma (self s') = Some [so] /\
    axon_hillock (self s') = Some hillock /\
    axon_initial_segment (self s') = Some ais /\
    ascending_axon (self s') = Some aa /\
    parallel_fiber (self s') = Some (pf0 :: pf1 :: pf) /\
    section_at s' so = Some ssec /\
    section_at s' hillock = Some hsec /\
    section_at s' ais = Some asec /\
    section_at s' aa = Some aasec /\
    section_at s' pf0 = Some sec0 /\
    section_at s' pf1 = Some sec1 /\
    proximal ssec = Some P /\
    distal ssec = Some (vadd P (vec3 0 5.62232 0)) /\
    proximal hsec = distal ssec /\
    distal hsec = Some (vadd P (vec3 0 6.62232 0)) /\
    proximal asec = distal hsec /\
    distal asec = Some (vadd P (vec3 0 16.62232 0)) /\
    proximal aasec = distal asec /\
    distal aasec = Some (vadd P (vec3 0 142.62232 0)) /\
    exists p q,
      distal aasec = Some q /\
      proximal sec0 = Some p /\
      proximal sec1 = Some p /\
      vx p = vx q /\
      vy p = vy q.
Proof.
  cbv zeta. run_builder s P h0 E.
  built_section P 0%nat H0. built_section P 5%nat H5. built_section P 6%nat H6.
  built_section P 7%nat H7. built_section P 8%nat H8. built_section P 9%nat H9.
  exists (relocate h0 (built P)), (shift_ref h0 0), (shift_ref h0 5), (shift_ref h0 6),
    (shift_ref h0 7), (shift_ref h0 8), (shift_ref h0 9), (map (shift_ref h0) (seq 10 98)).
  relocated_section h0 H0. relocated_section h0 H5. relocated_section h0 H6.
  relocated_section h0 H7. relocated_section h0 H8. relocated_section h0 H9.
  split; [exact E|].
  do 5 (split; [vm_compute; reflexivity|]).
  split; [rewrite section_at_relocate, H0; reflexivity|].
  split; [rewrite section_at_relocate, H5; reflexivity|].
  split; [rewrite section_at_relocate, H6; reflexivity|].
  split; [rewrite section_at_relocate, H7; reflexivity|].
  split; [rewrite section_at_relocate, H8; reflexivity|].
  split; [rewrite section_at_relocate, H9; reflexivity|].
  do 8 (split; [reflexivity|]).
  eexists _, _. repeat split; reflexivity.
Qed.

Lemma pf_sign_step id : (2 <= id)%nat -> pf_sign (id - 2) = pf_sign id.
Proof.
  intros H. unfold pf_sign.
  replace (Z.of_nat (id - 2)) with (Z.of_nat id + (-1) * 2) by lia.
  now rewrite Z_mod_plus_full.
Qed.

Lemma pf_z_step id : (2 <= id)%nat -> pf_z (id - 2) + 20 = pf_z id.
Proof.
  intros H. unfold pf_z.
  replace (Z.of_nat (id - 2)) with (Z.of_nat id + (-1) * 2) by lia.
  rewrite Z.div_add by lia. lia.
Qed.

(** X3: wherever the builder runs, each chain of the parallel fiber is
    contiguous: every compartment [id >= 2] starts at the 3-D point where the
    compartment [id - 2], to which it is connected, ends. *)
Theorem parallel_fiber_is_contiguous (s : State) :
  exists s' pf,
    GranuleBase.builder s = Some (tt, s') /\
    parallel_fiber (self s') = Some pf /\
    length pf = 100%nat /\
    forall id r, nth_error pf id = Some r -> (2 <= id)%nat ->
      exists p psec sec pt,
        nth_error pf (id - 2) = Some p /\
        section_at s' p = Some psec /\
        section_at s' r = Some sec /\
        sec_parent sec = Some (mkConnection p None) /\
        distal psec = Some pt /\
        proximal sec = Some pt.
Proof.
  destruct (parallel_fiber_closed_form s) as (s' & aa & pf & E & Haa & Hpf & Hlen & Hnd & H).
  exists s', pf. do 3 (split; [assumption|]).
  intros id r Hr Hid.
  assert (Hp : nth_error pf (id - 2) = Some (nth (id - 2) pf aa)).
  { apply nth_error_nth'.
    assert (id < length pf)%nat by (apply nth_error_Some; congruence). lia. }
  eexists _, _, _, _.
  split; [exact Hp|].
  split; [exact (H _ _ Hp)|].
  split; [exact (H _ _ Hr)|].
  split.
  { cbn [parallel_fiber_section sec_parent].
    now destruct (Nat.ltb_spec id 2); [lia|]. }
  split; [reflexivity|].
  unfold proximal, parallel_fiber_section. cbn [sec_pt3d hd_error].
  now rewrite (pf_sign_step id Hid), (pf_z_step id Hid).
Qed.

(** X4: wherever the builder runs, the 3-D points of every dendrite stop 13.5
    below its origin, short of its length 15, and the origins of the four
    dendrites lie at the X offsets -3, -1, 1 and 3 from the position. *)
Theorem dendrite_points_stop_short (s : State) :
  let P := position (self s) in
  exists s' ds,
    GranuleBase.builder s = Some (tt, s') /\
    dend (self s') = Some ds /\
    length ds = 4%nat /\
    (forall i d, nth_error ds i = Some d ->
       exists sec,
         section_at s' d = Some sec /\
         sec_L sec = Some 15%float /\
         distal sec
         = Some (vec3 (vx P + nth i [-3; -1; 1; 3]%float 0%float)
                      (vy P - 13.5) (vz P))) /\
    PrimFloat.ltb 13.5 15 = true.
Proof.
  cbv zeta.
  destruct (dendrites_closed_form s) as (s' & so & ds & E & Hso & Hds & Hlen & Hnd & H).
  exists s', ds. do 3 (split; [assumption|]).
  split; [|reflexivity].
  intros i d Hd. eexists. split; [exact (H i d Hd)|].
  split; [reflexivity|].
  assert (Hi : (i < 4)%nat) by (rewrite <- Hlen; apply nth_error_Some; congruence).
  do 4 (destruct i as [|i]; [vm_compute; reflexivity|]). lia.
Qed.

(** ** Labels *)

Lemma labels_satisfy_relocate h0 t ok r :
  labels_satisfy (relocate h0 t) ok (shift_ref h0 r) = labels_satisfy t ok r.
Proof.
  unfold labels_satisfy. rewrite section_at_relocate.
  now destruct (section_at t r).
Qed.

Lemma built_unlabelled (P : Vec3) :
  forallb (labels_satisfy (built P)
             (fun l => match l with [] => true | _ :: _ => false end))
    (seq 0 5) = true.
Proof. vm_compute. reflexivity. Qed.

Lemma built_labelled (P : Vec3) :
  forallb (labels_satisfy (built P)
             (fun l => match l with [x] => is_role_everywhere x | _ => false end))
    (seq 5 103) = true.
Proof. vm_compute. reflexivity. Qed.

Lemma is_role_everywhere_spec l :
  is_role_everywhere l = true ->
  forall t, In t all_section_types -> In l (map fst t).
Proof.
  unfold is_role_everywhere. rewrite forallb_forall. intros H t Ht.
  apply H in Ht. apply existsb_exists in Ht as (x & Hx & E).
  apply String.eqb_eq in E. now subst.
Qed.

(** X5: wherever the builder runs, the soma and the dendrites carry no label,
    and every section of the axon list carries exactly one label, which is a
    role of the section table of each of the four classes. *)
Theorem labels_are_roles (s : State) :
  exists s' so de ax,
    GranuleBase.builder s = Some (tt, s') /\
    soma (self s') = Some so /\
    dend (self s') = Some de /\
    axon (self s') = Some ax /\
    (forall r, In r (so ++ de) ->
       exists sec, section_at s' r = Some sec /\ sec_labels sec = []) /\
    (forall r, In r ax ->
       exists sec l,
         section_at s' r = Some sec /\
         sec_labels sec = [l] /\
         forall t, In t all_section_types -> In l (map fst t)).
Proof.
  run_builder s P h0 E.
  exists (relocate h0 (built P)), (map (shift_ref h0) [0%nat]),
    (map (shift_ref h0) (seq 1 4)), (map (shift_ref h0) (seq 5 103)).
  split; [exact E|].
  do 3 (split; [vm_compute; reflexivity|]).
  split.
  - intros r Hr. rewrite <- map_app in Hr.
    apply in_map_iff in Hr as (r0 & <- & Hr0).
    pose proof (built_unlabelled P) as W. rewrite forallb_forall in W.
    specialize (W r0 Hr0). unfold labels_satisfy in W.
    rewrite section_at_relocate.
    destruct (section_at (built P) r0) as [sec|]; [|discriminate].
    exists (shift_section h0 sec). split; [reflexivity|].
    cbn [shift_section sec_labels]. now destruct (sec_labels sec).
  - intros r Hr. apply in_map_iff in Hr as (r0 & <- & Hr0).
    pose proof (built_labelled P) as W. rewrite forallb_forall in W.
    specialize (W r0 Hr0). unfold labels_satisfy in W.
    rewrite section_at_relocate.
    destruct (section_at (built P) r0) as [sec|]; [|discriminate].
    destruct (sec_labels sec) as [|l [|]] eqn:Hl; try discriminate.
    exists (shift_section h0 sec), l. split; [reflexivity|].
    split; [exact Hl|]. now apply is_role_everywhere_spec.
Qed.

(** * Properties of the parameter tables *)

Lemma Forall_forallb {A} (P : A -> Prop) (p : A -> bool) (l : list A) :
  (forall x, p x = true -> P x) -> forallb p l = true -> Forall P l.
Proof.
  intros Hp H. rewrite forallb_forall in H. apply Forall_forall. auto.
Qed.

Lemma has_mechanism_spec name st :
  has_mechanism name st = true ->
  exists m, In m (mechanisms st) /\ mechanism_name m = name.
Proof.
  unfold has_mechanism. intros H. apply existsb_exists in H as (m & Hm & E).
  apply String.eqb_eq in E. eauto.
Qed.

Lemma attributes_name_mechanisms_spec st :
  attributes_name_mechanisms st = true ->
  forall a m v, In (MechAttr a m, v) (attributes st) ->
    exists mech, In mech (mechanisms st) /\ mechanism_name mech = m.
Proof.
  unfold attributes_name_mechanisms. rewrite forallb_forall.
  intros H a m v Hin. apply has_mechanism_spec. exact (H _ Hin).
Qed.

Lemma mechanisms_have_one_conductance_spec st :
  mechanisms_have_one_conductance st = true ->
  forall m, In m (mechanisms st) -> is_cdp5 m = false ->
    length (conductances_of (mechanism_name m) st) = 1%nat.
Proof.
  unfold mechanisms_have_one_conductance. rewrite forallb_forall.
  intros H m Hin Hc. specialize (H m Hin). rewrite Hc in H.
  now apply Nat.eqb_eq.
Qed.

(** X6: in every section type of every class, each per-mechanism attribute
    names a mechanism of that section type, and each mechanism other than
    [cdp5] has exactly one conductance attribute there. *)
Theorem mechanisms_and_attributes_correspond :
  Forall (fun t =>
    Forall (fun entry =>
      (forall a m v, In (MechAttr a m, v) (attributes (snd entry)) ->
         exists mech, In mech (mechanisms (snd entry)) /\ mechanism_name mech = m) /\
      (forall m, In m (mechanisms (snd entry)) -> is_cdp5 m = false ->
         length (conductances_of (mechanism_name m) (snd entry)) = 1%nat)) t)
    all_section_types.
Proof.
  apply Forall_forallb with
    (p := forallb (fun entry => attributes_name_mechanisms (snd entry)
                                && mechanisms_have_one_conductance (snd entry))).
  - intros t Ht. revert Ht. apply Forall_forallb. intros entry He.
    apply andb_true_iff in He as [Ha Hm]. split.
    + now apply attributes_name_mechanisms_spec.
    + now apply mechanisms_have_one_conductance_spec.
  - vm_compute. reflexivity.
Qed.

Lemma distinct_NoDup {K} (eqb : K -> K -> bool) (l : list K) :
  (forall x y, eqb x y = true -> x = y) -> (forall x, eqb x x = true) ->
  distinct eqb l = true -> NoDup l.
Proof.
  intros Heq Hrefl. induction l as [|x l IH]; cbn [distinct]; intros H.
  - constructor.
  - apply andb_true_iff in H as [Hx Hl]. constructor; [|now apply IH].
    intros Hin. apply negb_true_iff in Hx.
    assert (existsb (eqb x) l = true) by (apply existsb_exists; eauto).
    congruence.
Qed.

Lemma AttrKey_eqb_eq a b : AttrKey_eqb a b = true -> a = b.
Proof.
  destruct a, b; cbn; try discriminate.
  - intros H. apply String.eqb_eq in H. now subst.
  - intros H. apply andb_true_iff in H as [H1 H2].
    apply String.eqb_eq in H1, H2. now subst.
Qed.

Lemma AttrKey_eqb_refl a : AttrKey_eqb a a = true.
Proof. destruct a; cbn; now rewrite ?String.eqb_refl. Qed.

Lemma Mechanism_eqb_eq a b : Mechanism_eqb a b = true -> a = b.
Proof.
  destruct a, b; cbn; try discriminate.
  - intros H. apply String.eqb_eq in H. now subst.
  - intros H. apply andb_true_iff in H as [H1 H2].
    apply String.eqb_eq in H1, H2. now subst.
Qed.

Lemma Mechanism_eqb_refl a : Mechanism_eqb a a = true.
Proof. destruct a; cbn; now rewrite ?String.eqb_refl. Qed.

Lemma distinct_strings l : distinct String.eqb l = true -> NoDup l.
Proof.
  apply distinct_NoDup; [intros x y H; now apply String.eqb_eq | apply String.eqb_refl].
Qed.

(** X7: no dict literal of the tables has a key twice, so no entry shadows
    another, and no mechanism list names a mechanism twice. *)
Theorem table_keys_are_distinct :
  Forall (fun t =>
    NoDup (map fst t) /\
    Forall (fun entry => NoDup (map fst (syn_attributes (snd entry)))) t)
    all_synapse_types /\
  Forall (fun t =>
    NoDup (map fst t) /\
    Forall (fun entry =>
      NoDup (map fst (attributes (snd entry))) /\
      NoDup (mechanisms (snd entry))) t)
    all_section_types.
Proof.
  split.
  - apply Forall_forallb with
      (p := fun t =>
              distinct String.eqb (map fst t)
              && forallb (fun entry =>
                            distinct String.eqb (map fst (syn_attributes (snd entry)))) t);
      [|vm_compute; reflexivity].
    intros t Ht. apply andb_true_iff in Ht as [H1 H2].
    split; [now apply distinct_strings|].
    revert H2. apply Forall_forallb. intros entry. apply distinct_strings.
  - apply Forall_forallb with
      (p := fun t =>
              distinct String.eqb (map fst t)
              && forallb (fun entry =>
                            distinct AttrKey_eqb (map fst (attributes (snd entry)))
                            && distinct Mechanism_eqb (mechanisms (snd entry))) t);
      [|vm_compute; reflexivity].
    intros t Ht. apply andb_true_iff in Ht as [H1 H2].
    split; [now apply distinct_strings|].
    revert H2. apply Forall_forallb. intros entry He.
    apply andb_true_iff in He as [Ha Hm]. split.
    + revert Ha. apply distinct_NoDup; [apply AttrKey_eqb_eq | apply AttrKey_eqb_refl].
    + revert Hm. apply distinct_NoDup; [apply Mechanism_eqb_eq | apply Mechanism_eqb_refl].
Qed.

(** X8: in every class, only the section type ["dendrites"] lists synapses,
    and each synapse it lists is a key of the synapse table of the class,
    whose point process carries the same name. *)
Theorem synapses_are_defined :
  Forall (fun c =>
    Forall (fun entry =>
      match synapses (snd entry) with
      | Some l =>
          fst entry = "dendrites"%string /\
          Forall (fun syn =>
                    exists d, lookup String.eqb syn (fst c) = Some d /\
                              fst (point_process d) = syn) l
      | None => fst entry <> "dendrites"%string
      end) (snd c))
    classes.
Proof.
  unfold classes, all_synapse_types, all_section_types. cbn [combine].
  repeat apply Forall_cons; try apply Forall_nil; cbn [snd fst];
    repeat apply Forall_cons; try apply Forall_nil; cbn [snd fst synapses];
    try discriminate;
    (split; [reflexivity|]);
    repeat apply Forall_cons; try apply Forall_nil;
    eexists; split; reflexivity.
Qed.

(** X9: in every class, every section type that has attributes gives the
    axial resistance 100 and the reversal potentials [ek = -88],
    [eca = 137.5] and [e = -60] of the leak; it gives [ena = 87.39] when it
    lists a sodium mechanism, and no [ena] otherwise. *)
Theorem shared_constants :
  Forall (fun t =>
    Forall (fun entry =>
      let d := attributes (snd entry) in
      d = [] \/
      (lookup AttrKey_eqb (Attr "Ra") d = Some (Int 100) /\
       lookup AttrKey_eqb (Attr "ek") d = Some (Int (-88)) /\
       lookup AttrKey_eqb (Attr "eca") d = Some (Float 137.5) /\
       lookup AttrKey_eqb (MechAttr "e" "Leak") d = Some (Int (-60)) /\
       lookup AttrKey_eqb (Attr "ena") d
       = if has_mechanism "Na" (snd entry) then Some (Float 87.39) else None)) t)
    all_section_types.
Proof.
  unfold all_section_types.
  repeat apply Forall_cons; try apply Forall_nil;
    repeat apply Forall_cons; try apply Forall_nil;
    cbv zeta; cbn [snd attributes];
    first [left; reflexivity | right; repeat split; vm_compute; reflexivity].
Qed.

(** * Composition and errors of the build steps *)

Lemma built_position (P : Vec3) : position (self (built P)) = P.
Proof. vm_compute. reflexivity. Qed.

Lemma relocate_position h0 t : position (self (relocate h0 t)) = position (self t).
Proof. reflexivity. Qed.

Lemma relocate_heap_length h0 P :
  length (heap (relocate h0 (built P))) = (length h0 + 108)%nat.
Proof.
  unfold relocate. cbn [heap].
  rewrite length_app, length_map, built_heap_length. reflexivity.
Qed.

(** X10: running the builder a second time on the instance it has built
    builds a second cell of the same morphology from 108 more sections; the
    sections of the first cell stay in the store as they are, and none of them
    belongs to the second cell. *)
Theorem builder_twice (s : State) :
  exists s1 s2 m,
    GranuleBase.builder s = Some (tt, s1) /\
    GranuleBase.builder s1 = Some (tt, s2) /\
    morphology s1 = Some m /\
    morphology s2 = Some m /\
    length (heap s2) = (length (heap s) + 216)%nat /\
    forall r, In r (cell_sections s1) ->
      section_at s2 r = section_at s1 r /\ ~ In r (cell_sections s2).
Proof.
  run_builder s P h0 E.
  destruct (built_morphology P) as (m & Hm).
  pose proof (builder_relocates (relocate h0 (built P))) as E2.
  rewrite relocate_position, built_position in E2.
  exists (relocate h0 (built P)), (relocate (heap (relocate h0 (built P))) (built P)), m.
  split; [exact E|]. split; [exact E2|].
  split; [rewrite morphology_relocate; exact Hm|].
  split; [rewrite morphology_relocate; exact Hm|].
  split; [rewrite !relocate_heap_length; lia|].
  intros r Hr.
  rewrite cell_sections_relocate, built_cell_sections in Hr.
  apply in_map_iff in Hr as (k & <- & Hk). apply in_seq in Hk.
  split.
  - unfold section_at. unfold relocate at 1. cbn [heap]. apply nth_error_app1.
    rewrite relocate_heap_length. unfold shift_ref. lia.
  - rewrite cell_sections_relocate, built_cell_sections.
    intros Hin. apply in_map_iff in Hin as (k' & Hk' & _).
    unfold shift_ref in Hk'. rewrite relocate_heap_length in Hk'. lia.
Qed.

(** *** Steps that raise *)



















(** X12: a section length of 0 makes its step raise, on the division:
    [build_ascending_axon] when [fiber_segment_length] is 0, and
    [build_parallel_fiber] when [fiber_section_length] is 0. *)
Theorem zero_lengths_raise (s : State) :
  (fiber_segment_length (self s) = Some 0 ->
     GranuleBase.build_ascending_axon s = None) /\
  (fiber_section_length (self s) = Some 0 ->
     GranuleBase.build_parallel_fiber s = None).
Proof.
  split; intros H.
  - unfold GranuleBase.build_ascending_axon, bind at 1 2 3, getattr at 1 2.
    rewrite H. now destruct (ascending_axon_length (self s)).
  - unfold GranuleBase.build_parallel_fiber, bind at 1 2 3, getattr at 1 2.
    rewrite H. now destruct (parallel_fiber_length (self s)).
Qed.

Lemma zero_lengths_raise_witness :
  GranuleBase.build_ascending_axon example_zero_lengths = None /\
  GranuleBase.build_parallel_fiber example_zero_lengths = None.
Proof.
  destruct (zero_lengths_raise example_zero_lengths) as (H1 & H2).
  split; [apply H1; reflexivity | apply H2; reflexivity].
Defined.

(** * Names, and the geometry the tables give *)




(** X14: in every class the section type ["parallel_fiber"], and no other,
    gives a length and a diameter; its length 20 is the length the builder
    gives the parallel-fiber compartments, and its diameter 0.15 is half the
    diameter the builder gives them. *)
Theorem parallel_fiber_table_geometry (s : State) :
  exists s' pf,
    GranuleBase.builder s = Some (tt, s') /\
    parallel_fiber (self s') = Some pf /\
    (forall r, In r pf ->
       exists sec,
         section_at s' r = Some sec /\
         sec_L sec = Some (Py.float_of_int 20) /\
         sec_diam sec = Some (0.15 * 2)%float) /\
    Forall (fun t =>
      Forall (fun entry =>
        let d := attributes (snd entry) in
        if String.eqb (fst entry) "parallel_fiber" then
          lookup AttrKey_eqb (Attr "L") d = Some (Int 20) /\
          lookup AttrKey_eqb (Attr "diam") d = Some (Float 0.15)
        else
          lookup AttrKey_eqb (Attr "L") d = None /\
          lookup AttrKey_eqb (Attr "diam") d = None) t)
      all_section_types.
Proof.
  destruct (parallel_fiber_closed_form s) as (s' & aa & pf & E & Haa & Hpf & Hlen & Hnd & H).
  exists s', pf. do 2 (split; [assumption|]).
  split.
  - intros r Hr. apply In_nth_error in Hr as (id & Hid).
    eexists. split; [exact (H id r Hid)|]. split; vm_compute; reflexivity.
  - unfold all_section_types.
    repeat apply Forall_cons; try apply Forall_nil;
      repeat apply Forall_cons; try apply Forall_nil;
      cbv zeta; split; vm_compute; reflexivity.
Qed.
